(** * dsmr_backup.services.backup: scheduling and creation of database backups

  A shallow embedding of [dsmr_backup/services/backup.py] and of the parts
  of the Python and Django libraries it calls, followed by the properties
  of the module.

  Layout:
  - [Py]: strings, [os.path] (posixpath) and [datetime] as the module uses
    them;
  - [Django]: [django.utils.formats.date_format] and the time-zone helpers;
  - [Backup]: the world the module runs in and the five functions of
    [backup.py];
  - the properties. *)

From Stdlib Require Import ZArith Ascii List Lia.
From stdpp Require Import base decidable option list strings pretty gmap.

Local Open Scope Z_scope.

(* ===================================================================== *)
(** * Python: strings, posixpath, datetime *)
(* ===================================================================== *)

Module Py.

(** ** [str] *)

(** [s.startswith(p)] *)
Fixpoint startswith (p s : string) : bool :=
  match p, s with
  | "", _ => true
  | String a p', String b s' => if Ascii.eqb a b then startswith p' s' else false
  | String _ _, "" => false
  end.

(** [s.endswith(c)] for a one-character suffix. *)
Fixpoint endswith_char (c : ascii) (s : string) : bool :=
  match s with
  | "" => false
  | String a "" => Ascii.eqb a c
  | String _ s' => endswith_char c s'
  end.

(** [s.split(sep)] for a one-character separator: never the empty list. *)
Fixpoint split (sep : ascii) (s : string) : list string :=
  match s with
  | "" => [""]
  | String c s' =>
      if Ascii.eqb c sep then "" :: split sep s'
      else match split sep s' with
           | [] => [String c ""]
           | h :: t => String c h :: t
           end
  end.

(** [sep.join(parts)] *)
Fixpoint join (sep : string) (parts : list string) : string :=
  match parts with
  | [] => ""
  | [p] => p
  | p :: rest => p +:+ sep +:+ join sep rest
  end.

(** [str(x)] and ['%s' % x] for the values the module formats. *)
Definition str_int (n : Z) : string := pretty n.

Definition str_optional_int (n : option Z) : string :=
  match n with
  | None => "None"
  | Some k => str_int k
  end.

Definition str_optional (s : option string) : string :=
  match s with
  | None => "None"
  | Some t => t
  end.

(** ['%02d' % n] for [0 <= n]. *)
Definition fmt02 (n : Z) : string :=
  if n <? 10 then "0" +:+ str_int n else str_int n.

(** ** [os.path] on POSIX *)

(** One step of [posixpath.join]: a component starting with the separator
    replaces what was joined so far. *)
Definition os_path_join2 (path b : string) : string :=
  if startswith "/" b then b
  else if bool_decide (path = "") || endswith_char "/" path then path +:+ b
  else path +:+ "/" +:+ b.

(** [os.path.join(a, *p)] *)
Definition os_path_join (a : string) (p : list string) : string :=
  fold_left os_path_join2 p a.

(** The loop of [posixpath.normpath]. [new_comps] is kept as a stack, its
    last element first. [initial_slashes] is [0], [1] or [2]. *)
Fixpoint normpath_loop (initial_slashes : nat) (comps new_comps : list string)
  : list string :=
  match comps with
  | [] => rev new_comps
  | comp :: comps' =>
      if bool_decide (comp = "") || bool_decide (comp = ".") then
        normpath_loop initial_slashes comps' new_comps
      else if negb (bool_decide (comp = ".."))
              || (bool_decide (initial_slashes = 0%nat) && bool_decide (new_comps = []))
              || match new_comps with
                 | last :: _ => bool_decide (last = "..")
                 | [] => false
                 end
      then normpath_loop initial_slashes comps' (comp :: new_comps)
      else normpath_loop initial_slashes comps' (tail new_comps)
  end.

Fixpoint slashes (n : nat) : string :=
  match n with
  | O => ""
  | S n' => String "/" (slashes n')
  end.

(** [os.path.normpath(path)] *)
Definition os_path_normpath (path : string) : string :=
  if bool_decide (path = "") then "."
  else
    let initial_slashes :=
      if startswith "/" path then
        if startswith "//" path && negb (startswith "///" path) then 2%nat else 1%nat
      else 0%nat in
    let comps := normpath_loop initial_slashes (split "/" path) [] in
    let path' := slashes initial_slashes +:+ join "/" comps in
    if bool_decide (path' = "") then "." else path'.

(** [os.path.abspath(path)], with the working directory of the process. *)
Definition os_path_abspath (cwd path : string) : string :=
  if startswith "/" path then os_path_normpath path
  else os_path_normpath (os_path_join cwd [path]).

(** The directories [os.makedirs(path)] has to create above [path]: every
    non-empty prefix of [path] that ends right before a separator. *)
Fixpoint parents (seen rest : string) : list string :=
  match rest with
  | "" => []
  | String c rest' =>
      (if Ascii.eqb c "/" && negb (bool_decide (seen = "")) then [seen] else [])
      ++ parents (seen +:+ String c "") rest'
  end.

(** ** [datetime] *)

(** [datetime.date] *)
Record date := mk_date { year : Z; month : Z; day : Z }.

Global Instance date_eq_dec : EqDecision date.
Proof. solve_decision. Defined.

(** [datetime.time], naive. *)
Record time := mk_time { hour : Z; minute : Z; second : Z; microsecond : Z }.

Definition USEC_PER_SECOND : Z := 1000000.
Definition USEC_PER_DAY : Z := 86400 * USEC_PER_SECOND.

(** A [datetime.datetime]: the wall-clock reading, counted in microseconds
    from 0001-01-01T00:00:00 of its own zone, and the offset of that zone
    from UTC in microseconds ([tzinfo.utcoffset]; [None] for a naive
    value). *)
Record datetime := mk_datetime { wall : Z; utcoffset : option Z }.

Definition is_leap (y : Z) : bool :=
  (y mod 4 =? 0) && (negb (y mod 100 =? 0) || (y mod 400 =? 0)).

Definition days_before_year (y : Z) : Z :=
  let y' := y - 1 in y' * 365 + y' / 4 - y' / 100 + y' / 400.

Definition DAYS_IN_MONTH (m : Z) : Z :=
  match m with
  | 1 => 31 | 2 => 28 | 3 => 31 | 4 => 30 | 5 => 31 | 6 => 30
  | 7 => 31 | 8 => 31 | 9 => 30 | 10 => 31 | 11 => 30 | 12 => 31
  | _ => -1
  end.

Definition DAYS_BEFORE_MONTH (m : Z) : Z :=
  match m with
  | 1 => 0 | 2 => 31 | 3 => 59 | 4 => 90 | 5 => 120 | 6 => 151
  | 7 => 181 | 8 => 212 | 9 => 243 | 10 => 273 | 11 => 304 | 12 => 334
  | _ => -1
  end.

Definition days_before_month (y m : Z) : Z :=
  DAYS_BEFORE_MONTH m + (if (2 <? m) && is_leap y then 1 else 0).

(** [_ymd2ord]: 0001-01-01 is day 1. *)
Definition ymd2ord (d : date) : Z :=
  days_before_year (year d) + days_before_month (year d) (month d) + day d.

Definition DI400Y : Z := 146097.
Definition DI100Y : Z := 36524.
Definition DI4Y : Z := 1461.

(** [_ord2ymd] *)
Definition ord2ymd (ordinal : Z) : date :=
  let n := ordinal - 1 in
  let n400 := n / DI400Y in
  let n := n mod DI400Y in
  let n100 := n / DI100Y in
  let n := n mod DI100Y in
  let n4 := n / DI4Y in
  let n := n mod DI4Y in
  let n1 := n / 365 in
  let n := n mod 365 in
  let y := n400 * 400 + 1 + n100 * 100 + n4 * 4 + n1 in
  if (n1 =? 4) || (n100 =? 4) then mk_date (y - 1) 12 31
  else
    let leapyear := (n1 =? 3) && (negb (n4 =? 24) || (n100 =? 3)) in
    let m := Z.shiftr (n + 50) 5 in
    let preceding := DAYS_BEFORE_MONTH m + (if (2 <? m) && leapyear then 1 else 0) in
    if n <? preceding then
      let m' := m - 1 in
      let preceding' :=
        preceding - (DAYS_IN_MONTH m' + (if (m' =? 2) && leapyear then 1 else 0)) in
      mk_date y m' (n - preceding' + 1)
    else mk_date y m (n - preceding + 1).

(** [date.weekday()]: Monday is 0. *)
Definition weekday (d : date) : Z := (ymd2ord d + 6) mod 7.

(** [datetime.date()]: the calendar date of the wall-clock reading. *)
Definition datetime_date (dt : datetime) : date :=
  ord2ymd (wall dt / USEC_PER_DAY + 1).

Definition time_usec (t : time) : Z :=
  ((hour t * 60 + minute t) * 60 + second t) * USEC_PER_SECOND + microsecond t.

(** [datetime.combine(date, time)] with a naive [time]. *)
Definition datetime_combine (d : date) (t : time) : datetime :=
  mk_datetime ((ymd2ord d - 1) * USEC_PER_DAY + time_usec t) None.

(** The instant of an aware value on the UTC axis (a naive one is read as
    it stands). *)
Definition utc_instant (dt : datetime) : Z :=
  wall dt - default 0 (utcoffset dt).

(** [a < b] on aware values. *)
Definition datetime_lt (a b : datetime) : bool := utc_instant a <? utc_instant b.

(** [dt.astimezone(tz)] for a zone at a fixed offset. *)
Definition astimezone (offset : Z) (dt : datetime) : datetime :=
  mk_datetime (utc_instant dt + offset) (Some offset).

End Py.

(* ===================================================================== *)
(** * Django: date formatting and time zones *)
(* ===================================================================== *)

Module Django.
Import Py.

(** [django.utils.dates.WEEKDAYS], indexed by [date.weekday()]; the names
    are message ids, shown here untranslated. *)
Definition WEEKDAYS (n : Z) : string :=
  match n with
  | 0 => "Monday" | 1 => "Tuesday" | 2 => "Wednesday" | 3 => "Thursday"
  | 4 => "Friday" | 5 => "Saturday" | _ => "Sunday"
  end.

(** What one character of a format string stands for in
    [django.utils.dateformat]: [Y] the year as a number, [m] and [d] the
    month and the day on two digits, [l] the name of the weekday. The
    module uses no other format character; any other character is copied. *)
Definition format_char (value : date) (c : ascii) : string :=
  if Ascii.eqb c "Y" then str_int (year value)
  else if Ascii.eqb c "m" then fmt02 (month value)
  else if Ascii.eqb c "d" then fmt02 (day value)
  else if Ascii.eqb c "l" then WEEKDAYS (weekday value)
  else String c "".

(** [django.utils.formats.date_format(value, format)] *)
Fixpoint date_format (value : date) (format : string) : string :=
  match format with
  | "" => ""
  | String c format' => format_char value c +:+ date_format value format'
  end.

(** [timezone.localtime(value)]: [value] in the current time zone, which
    lies [tz] microseconds east of UTC. The zone is taken at a fixed
    offset. *)
Definition localtime (tz : Z) (value : datetime) : datetime := astimezone tz value.

(** [timezone.make_aware(value)]: the naive [value] read in the current
    time zone. *)
Definition make_aware (tz : Z) (value : datetime) : datetime :=
  mk_datetime (wall value) (Some tz).

End Django.

(* ===================================================================== *)
(** * The backup service *)
(* ===================================================================== *)

Module Backup.
Import Py Django.

(** ** Collaborators *)

(** [dsmr_backup.models.settings.BackupSettings], a singleton row. *)
Record BackupSettings := mk_settings {
  daily_backup : bool;
  backup_time : time;
  latest_backup : option datetime;
  folder : string
}.

Definition set_latest_backup (s : BackupSettings) (t : option datetime) : BackupSettings :=
  mk_settings (daily_backup s) (backup_time s) t (folder s).

(** A Django model class, as far as the module looks at it:
    [x._meta.db_table]. *)
Record Model := mk_model { db_table : string }.

(** What the operating system does with a launched command: the bytes the
    child writes to its standard output (its standard error is redirected
    there) and its exit status. *)
Record Completed := mk_completed { output : string; exit_status : Z }.

(** Everything the module reads and never changes: [django.conf.settings],
    [django.db.connection], the current time zone, the process's working
    directory, the clock and the operating system. Time-zone support is on
    ([USE_TZ]): lines 35-39 of the module convert and compare aware values
    and fail on naive ones. [clock n] is the UTC
    reading, in microseconds from 0001-01-01T00:00:00, that the [n]-th call
    of [timezone.now()] returns. *)
Record Env := mk_env {
  connection_vendor : string;
  BASE_DIR : string;
  DATABASES_NAME : string;
  DATABASES_HOST : string;
  DATABASES_USER : string;
  DATABASES_PASSWORD : string;
  DSMRREADER_BACKUP_PG_DUMP : string;
  DSMRREADER_BACKUP_MYSQLDUMP : string;
  DSMRREADER_BACKUP_SQLITE : string;
  TIME_ZONE : Z;
  DayStatistics : Model;
  getcwd : string;
  clock : nat → Z;
  run : list string → gmap string string → Completed
}.

(** ** The world *)

Inductive level := DEBUG | INFO | CRITICAL.

(** What a run of the module does to the outside, in the order of
    occurrence. *)
Inductive event :=
| Log (lvl : level) (msg : string)
| Makedirs (path : string)
| GzipOpen (path : string) (compresslevel : Z)
| Launch (args : list string) (env : gmap string string)
| DashboardMessage (msg : string)
| SettingsSave (s : BackupSettings).

(** A gzip archive on disk. *)
Record archive := mk_archive { compresslevel : Z; payload : string }.

(** The mutable state around the module. [trace] lists the events so far,
    the most recent one first. *)
Record World := mk_world {
  settings_db : BackupSettings;
  dirs : gset string;
  archives : gmap string archive;
  ticks : nat;
  trace : list event
}.

Inductive exn :=
| NotImplementedError (msg : string)
| IOError (msg : option string)
| FileExistsError (path : string).

(** The outcome of a call: a value or a raised exception, and the world it
    leaves behind. Effects made before an exception is raised stay. *)
Inductive result (A : Type) :=
| Ok (a : A) (w : World)
| Raise (e : exn) (w : World).
Arguments Ok {A} a w.
Arguments Raise {A} e w.

Definition M (A : Type) : Type := World → result A.

Definition ret {A} (a : A) : M A := λ w, Ok a w.

Definition bind {A B} (m : M A) (k : A → M B) : M B :=
  λ w, match m w with
       | Ok a w' => k a w'
       | Raise e w' => Raise e w'
       end.

Definition raise {A} (e : exn) : M A := λ w, Raise e w.

Global Instance M_ret : MRet M := @ret.
Global Instance M_bind : MBind M := λ A B k m, bind m k.

Definition world_of {A} (r : result A) : World :=
  match r with
  | Ok _ w => w
  | Raise _ w => w
  end.

Definition emit (e : event) : M unit :=
  λ w, Ok () (mk_world (settings_db w) (dirs w) (archives w) (ticks w) (e :: trace w)).

(** ** Library calls with an effect *)

Definition logger_info (msg : string) : M unit := emit (Log INFO msg).
Definition logger_debug (msg : string) : M unit := emit (Log DEBUG msg).
Definition logger_critical (msg : string) : M unit := emit (Log CRITICAL msg).

(** [dsmr_frontend.services.display_dashboard_message] *)
Definition display_dashboard_message (message : string) : M unit :=
  emit (DashboardMessage message).

(** [BackupSettings.get_solo()]: the row as the database returns it, its
    timestamp as an aware value in UTC. *)
Definition get_solo : M BackupSettings :=
  λ w, let s := settings_db w in
       Ok (set_latest_backup s (astimezone 0 <$> latest_backup s)) w.

(** [backup_settings.save()] *)
Definition save (s : BackupSettings) : M unit :=
  λ w, Ok () (mk_world s (dirs w) (archives w) (ticks w) (SettingsSave s :: trace w)).

(** [os.path.exists(path)] *)
Definition os_path_exists (path : string) : M bool :=
  λ w, Ok (bool_decide (path ∈ dirs w)) w.

(** [os.makedirs(path)]: creates [path] and the directories above it;
    raises when [path] is there already. *)
Definition os_makedirs (path : string) : M unit :=
  λ w, if bool_decide (path ∈ dirs w) then Raise (FileExistsError path) w
       else Ok () (mk_world (settings_db w)
                            (dirs w ∪ list_to_set (path :: parents "" path))
                            (archives w) (ticks w) (Makedirs path :: trace w)).

(** [gzip.open(path, 'wb', compresslevel=n)]: creates or truncates the
    archive; the handle is its path. *)
Definition gzip_open (path : string) (n : Z) : M string :=
  λ w, Ok path (mk_world (settings_db w) (dirs w)
                         (<[path := mk_archive n ""]> (archives w))
                         (ticks w) (GzipOpen path n :: trace w)).

(** [shutil.copyfileobj(data, log_file)]: appends what the pipe delivers
    to the archive behind the handle. *)
Definition shutil_copyfileobj (data : string) (log_file : string) : M unit :=
  λ w, Ok () (mk_world (settings_db w) (dirs w)
                       (alter (λ a, mk_archive (compresslevel a) (payload a +:+ data))
                              log_file (archives w))
                       (ticks w) (trace w)).

(** A [subprocess.Popen] object. [returncode] is the attribute of that
    name: [None] until the process has been waited for, whatever the child
    has done meanwhile (the Python documentation: "set by poll() and wait()
    [...] A None value indicates that the process hasn't terminated yet").
    [stderr] is [None] because the child's standard error goes to its
    standard output. [status] is the exit status that waiting will
    collect. *)
Record Popen := mk_popen {
  popen_args : list string;
  returncode : option Z;
  stdout : string;
  stderr : option string;
  status : Z
}.

(** Leaving the [with] block of a [Popen] object waits for the process,
    which sets [returncode]. *)
Definition Popen_exit (p : Popen) : Popen :=
  mk_popen (popen_args p) (Some (status p)) (stdout p) (stderr p) (status p).

(** [x != 0] for an optional integer: [None != 0] holds. *)
Definition ne_zero (x : option Z) : bool :=
  match x with
  | Some 0 => false
  | _ => true
  end.

Section Services.
Context (env : Env).

(** [timezone.now()]: the next reading of the clock, aware, in UTC. *)
Definition timezone_now : M datetime :=
  λ w, Ok (mk_datetime (clock env (ticks w)) (Some 0))
          (mk_world (settings_db w) (dirs w) (archives w) (S (ticks w)) (trace w)).

(** [subprocess.Popen(command, env=..., stdout=PIPE, stderr=STDOUT)] *)
Definition subprocess_Popen (command : list string) (environ : gmap string string)
  : M Popen :=
  let c := run env command environ in
  _ ← emit (Launch command environ);
  mret (mk_popen command None (output c) None (exit_status c)).

(** ** [backup.py] *)

(** [on_backup_failed(process_handle)], lines 196-205. It always raises. *)
Definition on_backup_failed {A} (process_handle : Popen) : M A :=
  let error_message := stderr process_handle in
  _ ← logger_critical (" - Unexpected exit code (" +:+ str_optional_int (returncode process_handle)
                       +:+ ") for backup: " +:+ str_optional error_message);
  _ ← display_dashboard_message "Backup creation failed, please check the dsmr_backend logfile.";
  raise (IOError error_message).

(** [get_backup_directory(backup_directory=None)], lines 63-71. An empty
    string is as false as [None]. *)
Definition get_backup_directory (backup_directory : option string) : M string :=
  backup_directory ←
    match backup_directory with
    | Some d => if bool_decide (d = "") then s ← get_solo; mret (folder s) else mret d
    | None => s ← get_solo; mret (folder s)
    end;
  if startswith "/" backup_directory then
    mret (os_path_abspath (getcwd env) backup_directory)
  else
    mret (os_path_abspath (getcwd env) (os_path_join (BASE_DIR env) [".."; backup_directory])).

(** Lines 76-78 and 138-140. *)
Definition ensure_folder (folder : string) : M unit :=
  there ← os_path_exists folder;
  if negb there then
    _ ← logger_info (" - Creating non-existing backup folder: " +:+ folder);
    os_makedirs folder
  else mret ().

(** The name of a full backup, lines 81-83. *)
Definition full_backup_file (folder : string) (today : date) : string :=
  os_path_join folder
    ["dsmrreader-" +:+ connection_vendor env +:+ "-backup-" +:+ date_format today "l" +:+ ".sql.gz"].

(** The name of a partial backup, lines 142-144. *)
Definition partial_backup_file (folder : string) (today : date) : string :=
  os_path_join folder
    ["dsmrreader-" +:+ connection_vendor env +:+ "-partial-backup-"
     +:+ date_format today "Y-m-d" +:+ ".sql.gz"].

(** The command of a full backup, lines 87-116. *)
Definition full_command : exn + list string :=
  if bool_decide (connection_vendor env = "postgresql") then
    inr [ DSMRREADER_BACKUP_PG_DUMP env;
          DATABASES_NAME env;
          "--host=" +:+ DATABASES_HOST env;
          "--user=" +:+ DATABASES_USER env ]
  else if bool_decide (connection_vendor env = "mysql") then
    inr [ DSMRREADER_BACKUP_MYSQLDUMP env;
          "--compress";
          "--hex-blob";
          "--extended-insert";
          "--quick";
          "--host"; DATABASES_HOST env;
          "--user"; DATABASES_USER env;
          "--password=" +:+ DATABASES_PASSWORD env;
          DATABASES_NAME env ]
  else if bool_decide (connection_vendor env = "sqlite") then
    inr [ DSMRREADER_BACKUP_SQLITE env;
          DATABASES_NAME env;
          ".dump" ]
  else inl (NotImplementedError ("Unsupported backup backend: " +:+ connection_vendor env)).

(** The command of a partial backup, lines 148-175. *)
Definition partial_command (models_to_backup : list Model) : exn + list string :=
  if bool_decide (connection_vendor env = "postgresql") then
    inr ([ DSMRREADER_BACKUP_PG_DUMP env;
           DATABASES_NAME env;
           "--data-only";
           "--host=" +:+ DATABASES_HOST env;
           "--user=" +:+ DATABASES_USER env ]
         ++ map (λ x, "--table=" +:+ db_table x) models_to_backup)
  else if bool_decide (connection_vendor env = "mysql") then
    inr ([ DSMRREADER_BACKUP_MYSQLDUMP env;
           "--compress";
           "--compact";
           "--hex-blob";
           "--extended-insert";
           "--quick";
           "--host"; DATABASES_HOST env;
           "--user"; DATABASES_USER env;
           "--password=" +:+ DATABASES_PASSWORD env;
           DATABASES_NAME env ]
         ++ map db_table models_to_backup)
  else inl (NotImplementedError ("Unsupported backup backend: " +:+ connection_vendor env)).

Definition or_raise {A} (x : exn + A) : M A :=
  match x with
  | inl e => raise e
  | inr a => mret a
  end.

(** The environment handed to the child, lines 121-123 and 180-182. *)
Definition child_environ : gmap string string :=
  {[ "PGPASSWORD" := DATABASES_PASSWORD env ]}.

(** [create_full(folder)], lines 74-133. The exit code is looked at inside
    the [with] block, before the process has been waited for. The function
    has no [return] statement. *)
Definition create_full (folder : string) : M unit :=
  _ ← ensure_folder folder;
  now ← timezone_now;
  let backup_file := full_backup_file folder (datetime_date now) in
  _ ← logger_info (" - Creating new full backup: " +:+ backup_file);
  command ← or_raise full_command;
  log_file ← gzip_open backup_file 6;
  backup_process ← subprocess_Popen command child_environ;
  _ ← shutil_copyfileobj (stdout backup_process) log_file;
  _ ← logger_debug (" - Backup exit code: " +:+ str_optional_int (returncode backup_process));
  _ ← (if ne_zero (returncode backup_process) then on_backup_failed backup_process
       else mret ());
  logger_info (" - Created and compressed full backup: " +:+ backup_file).

(** [create_partial(folder, models_to_backup)], lines 136-193. The exit
    code is looked at after the [with] block. *)
Definition create_partial (folder : string) (models_to_backup : list Model) : M string :=
  _ ← ensure_folder folder;
  now ← timezone_now;
  let backup_file := partial_backup_file folder (datetime_date now) in
  _ ← logger_info (" - Creating new partial backup: " +:+ backup_file);
  command ← or_raise (partial_command models_to_backup);
  log_file ← gzip_open backup_file 9;
  backup_process ← subprocess_Popen command child_environ;
  _ ← shutil_copyfileobj (stdout backup_process) log_file;
  let backup_process := Popen_exit backup_process in
  _ ← logger_debug (" - Backup exit code: " +:+ str_optional_int (returncode backup_process));
  _ ← (if ne_zero (returncode backup_process) then on_backup_failed backup_process
       else mret ());
  _ ← logger_info (" - Created and compressed statistics backup: " +:+ backup_file);
  mret backup_file.

(** Lines 43-60 of [check()]: the partial backup of the statistics, the
    full backup, and the note of the time in the settings. [today] is the
    local date of line 44. The two functions that [check] calls by name are
    arguments. *)
Definition backup_cycle
    (create_partial : string → list Model → M string)
    (create_full : string → M unit)
    (today : date) : M unit :=
  directory ← get_backup_directory None;
  _ ← create_partial
        (os_path_join directory
           ["archive"; date_format today "Y"; date_format today "m"])
        [DayStatistics env];
  directory ← get_backup_directory None;
  _ ← create_full directory;
  backup_settings ← get_solo;
  now ← timezone_now;
  save (set_latest_backup backup_settings (Some now)).

(** [check()], lines 22-60. In [a and b] Python evaluates [b], and with
    it [timezone.now()], only when [a] is true. *)
Definition check_with
    (create_partial : string → list Model → M string)
    (create_full : string → M unit) : M unit :=
  backup_settings ← get_solo;
  if negb (daily_backup backup_settings) then mret ()
  else
    already ←
      match latest_backup backup_settings with
      | Some latest =>
          now ← timezone_now;
          mret (bool_decide (datetime_date latest = datetime_date now))
      | None => mret false
      end;
    if (already : bool) then mret ()
    else
      now ← timezone_now;
      let next_backup_timestamp :=
        make_aware (TIME_ZONE env)
          (datetime_combine (datetime_date (localtime (TIME_ZONE env) now))
                            (backup_time backup_settings)) in
      postpone ←
        match latest_backup backup_settings with
        | Some _ =>
            now ← timezone_now;
            mret (datetime_lt now next_backup_timestamp)
        | None => mret false
        end;
      if (postpone : bool) then mret ()
      else
        now ← timezone_now;
        let today := datetime_date (localtime (TIME_ZONE env) now) in
        backup_cycle create_partial create_full today.

Definition check : M unit := check_with create_partial create_full.

(** [sync()], lines 208-210, delegates to [dsmr_dropbox.services.sync],
    which is not part of the module. *)

End Services.

End Backup.

(* ===================================================================== *)
(** * Properties *)
(* ===================================================================== *)

Import Py Django Backup.

(** ** Vocabulary of the properties *)

(** The world after lines 76-78. *)
Definition ensured (folder : string) (w : World) : World :=
  if bool_decide (folder ∈ dirs w) then w
  else mk_world (settings_db w)
                (dirs w ∪ list_to_set (folder :: parents "" folder))
                (archives w) (ticks w)
                (Makedirs folder
                 :: Log INFO (" - Creating non-existing backup folder: " +:+ folder)
                 :: trace w).

Definition FAILED_MESSAGE : string :=
  "Backup creation failed, please check the dsmr_backend logfile.".

(** The archive at [file] after the child's output has been copied in. *)
Definition written (file : string) (n : Z) (data : string)
    (a : gmap string archive) : gmap string archive :=
  alter (λ x, mk_archive (compresslevel x) (payload x +:+ data)) file
        (<[file := mk_archive n ""]> a).

(** The commands a trace launched, with their environments. *)
Definition launched (t : list event) : list (list string * gmap string string) :=
  omap (λ e, match e with
             | Launch args environ => Some (args, environ)
             | _ => None
             end) t.

(** The settings writes of a trace. *)
Definition saves (t : list event) : list BackupSettings :=
  omap (λ e, match e with
             | SettingsSave s => Some s
             | _ => None
             end) t.

(** The events of lines 76-78. *)
Definition made (folder : string) (w : World) : list event :=
  if bool_decide (folder ∈ dirs w) then []
  else [Makedirs folder; Log INFO (" - Creating non-existing backup folder: " +:+ folder)].

(** Fixtures for the examples. *)
Module Fixture.

(** The reading of the UTC clock at [h]:[mi] on the day [d]. *)
Definition at_utc (d : date) (h mi : Z) : Z :=
  (ymd2ord d - 1) * USEC_PER_DAY + (h * 60 + mi) * 60 * USEC_PER_SECOND.

(** An installation in a zone one hour east of UTC whose dump tool exits
    with [exit]. *)
Definition an_env (vendor : string) (exit : Z) (clock : nat → Z) : Env :=
  mk_env vendor "/home/dsmr/dsmr-reader/dsmrreader"
    "dsmrreader" "localhost" "dsmr" "secret"
    "pg_dump" "mysqldump" "sqlite3"
    (3600 * USEC_PER_SECOND) (mk_model "dsmr_stats_daystatistics") "/home/dsmr"
    clock (λ _ _, mk_completed "-- dump" exit).

Definition noon : nat → Z := λ _, at_utc (mk_date 2020 1 1) 12 0.

(** A fresh world: nothing on disk, nothing logged. *)
Definition a_world (s : BackupSettings) : World := mk_world s ∅ ∅ 0 [].

Definition first_run : BackupSettings := mk_settings true (mk_time 2 0 0 0) None "backups/".

End Fixture.

(** What is left of a call that stopped at the vendor test: the folder is
    there, created by the call if it was not; nothing was launched and no
    archive was touched. [new] are the events of the call. *)
Definition folder_only (folder : string) (w w' : World) : Prop :=
  ∃ new, trace w' = new ++ trace w
         ∧ folder ∈ dirs w'
         ∧ (folder ∉ dirs w → In (Makedirs folder) new)
         ∧ launched new = []
         ∧ (∀ path n, ¬ In (GzipOpen path n) new)
         ∧ archives w' = archives w.

(** The path that [get_backup_directory] resolves: the override unless it
    is missing or empty, else the folder of the settings. *)
Definition chosen (backup_directory : option string) (s : BackupSettings) : string :=
  match backup_directory with
  | Some d => if bool_decide (d = "") then folder s else d
  | None => folder s
  end.

(** Its resolution, lines 68-71. *)
Definition resolved (env : Env) (path : string) : string :=
  if startswith "/" path then os_path_abspath (getcwd env) path
  else os_path_abspath (getcwd env) (os_path_join (BASE_DIR env) [".."; path]).

(** The world after [n] more readings of the clock and nothing else. *)
Definition advance (n : nat) (w : World) : World :=
  mk_world (settings_db w) (dirs w) (archives w) (n + ticks w) (trace w).

(** The [n]-th reading of the clock from [w] on. *)
Definition reading (env : Env) (n : nat) (w : World) : datetime :=
  mk_datetime (clock env (n + ticks w)) (Some 0).

(** The folder [check] hands to the partial backup. *)
Definition archive_folder (env : Env) (today : date) (s : BackupSettings) : string :=
  os_path_join (resolved env (folder s))
    ["archive"; date_format today "Y"; date_format today "m"].

(** The world after lines 58-60: the settings as they are in [w], with
    the next reading of the clock as [latest_backup], saved. *)
Definition recorded (env : Env) (w : World) : World :=
  let s := set_latest_backup (settings_db w) (Some (reading env 0 w)) in
  mk_world s (dirs w) (archives w) (S (ticks w)) (SettingsSave s :: trace w).

(** How a backup cycle that starts in [w0] can end. *)
Inductive cycle_outcome (env : Env)
    (cp : string → list Model → M string) (cf : string → M unit)
    (today : date) (w0 : World) : result unit → Prop :=
| partial_raised e w1 :
    cp (archive_folder env today (settings_db w0)) [DayStatistics env] w0 = Raise e w1 →
    cycle_outcome env cp cf today w0 (Raise e w1)
| full_raised p w1 e w2 :
    cp (archive_folder env today (settings_db w0)) [DayStatistics env] w0 = Ok p w1 →
    cf (resolved env (folder (settings_db w1))) w1 = Raise e w2 →
    cycle_outcome env cp cf today w0 (Raise e w2)
| completed p w1 w2 :
    cp (archive_folder env today (settings_db w0)) [DayStatistics env] w0 = Ok p w1 →
    cf (resolved env (folder (settings_db w1))) w1 = Ok () w2 →
    cycle_outcome env cp cf today w0 (Ok () (recorded env w2)).

(** How a call of [check] in [w] can end: at one of its gates, having read
    the clock and done nothing else, or with the outcome of a cycle. *)
Inductive check_outcome (env : Env)
    (cp : string → list Model → M string) (cf : string → M unit)
    (w : World) : result unit → Prop :=
| stopped n :
    check_outcome env cp cf w (Ok () (advance n w))
| cycled n today r :
    cycle_outcome env cp cf today (advance n w) r →
    check_outcome env cp cf w r.

(** A callee that leaves the persisted settings alone. *)
Definition keeps_settings {A} (m : M A) : Prop :=
  ∀ w, settings_db (world_of (m w)) = settings_db w
       ∧ saves (trace (world_of (m w))) = saves (trace w).


(** A second call of [check] on one local day. *)
Module SameLocalDay.

(** A zone one hour east of UTC, a backup time of 00:00, a backup made at
    00:30 local time on 2 January 2020 (23:30 UTC on 1 January) and a call
    of [check] at 01:10 local time of the same day (00:10 UTC). *)
Definition now : Z := Fixture.at_utc (mk_date 2020 1 2) 0 10.
Definition env : Env := Fixture.an_env "postgresql" 0 (λ _, now).
Definition latest : datetime :=
  mk_datetime (Fixture.at_utc (mk_date 2020 1 1) 23 30) (Some 0).
Definition settings : BackupSettings :=
  mk_settings true (mk_time 0 0 0 0) (Some latest) "backups/".
Definition world : World := Fixture.a_world settings.

End SameLocalDay.

(** The archives a trace opened, with their compression levels. *)
Definition opened (t : list event) : list (string * Z) :=
  omap (λ e, match e with
             | GzipOpen path n => Some (path, n)
             | _ => None
             end) t.

(** An argument that selects a table for [pg_dump]. *)
Definition table_flag (a : string) : bool := startswith "--table=" a.

(** Two environments with the same vendor, connection parameters and tool
    paths. *)
Definition same_connection (env env' : Env) : Prop :=
  connection_vendor env' = connection_vendor env
  ∧ DATABASES_NAME env' = DATABASES_NAME env
  ∧ DATABASES_HOST env' = DATABASES_HOST env
  ∧ DATABASES_USER env' = DATABASES_USER env
  ∧ DATABASES_PASSWORD env' = DATABASES_PASSWORD env
  ∧ DSMRREADER_BACKUP_PG_DUMP env' = DSMRREADER_BACKUP_PG_DUMP env
  ∧ DSMRREADER_BACKUP_MYSQLDUMP env' = DSMRREADER_BACKUP_MYSQLDUMP env
  ∧ DSMRREADER_BACKUP_SQLITE env' = DSMRREADER_BACKUP_SQLITE env.

(** The unsupported-backend error of lines 116 and 175. *)
Definition UNSUPPORTED (env : Env) : exn :=
  NotImplementedError ("Unsupported backup backend: " +:+ connection_vendor env).

(** The environment with another database password. *)
Definition with_password (env : Env) (password : string) : Env :=
  mk_env (connection_vendor env) (BASE_DIR env) (DATABASES_NAME env)
    (DATABASES_HOST env) (DATABASES_USER env) password
    (DSMRREADER_BACKUP_PG_DUMP env) (DSMRREADER_BACKUP_MYSQLDUMP env)
    (DSMRREADER_BACKUP_SQLITE env) (TIME_ZONE env) (DayStatistics env)
    (getcwd env) (clock env) (run env).

(** The number that two decimal digits denote. *)
Definition two_digits (s : string) : Z :=
  match s with
  | String a (String b "") =>
      10 * (Z.of_nat (nat_of_ascii a) - 48) + (Z.of_nat (nat_of_ascii b) - 48)
  | _ => -1
  end.


(** The folder with the separator that [os.path.join] puts behind it. *)
Definition with_sep (folder : string) : string :=
  if bool_decide (folder = "") || endswith_char "/" folder then folder
  else folder +:+ "/".


(** No separator in [s]. *)
Fixpoint no_sep (s : string) : bool :=
  match s with
  | "" => true
  | String c s' => negb (Ascii.eqb c "/") && no_sep s'
  end.

(** A name of a directory entry: not empty, not [.] or [..], without a
    separator. *)
Definition name (c : string) : Prop :=
  c ≠ "" ∧ c ≠ "." ∧ c ≠ ".." ∧ no_sep c = true.

(** The absolute path with the components [comps]. *)
Definition rooted (comps : list string) : string := "/" +:+ join "/" comps.

(** The date [d] moved by [k] years. *)
Definition shift_year (k : Z) (d : date) : date :=
  mk_date (year d + k) (month d) (day d).

(** One step of a check over a range of numbers. *)
Definition check_step (P : Z → bool) (acc : bool * Z) : bool * Z :=
  (fst acc && P (snd acc), snd acc + 1).

(** [P] holds for the [len] numbers from [lo] on. *)
Definition holds_from (P : Z → bool) (lo : Z) (len : N) : bool :=
  fst (N.iter len (check_step P) (true, lo)).

(** The date of the day [n] leads back to [n], and its month and day are
    in range. *)
Definition day_ok (n : Z) : bool :=
  let d := ord2ymd n in
  (ymd2ord d =? n)
  && (1 <=? month d) && (month d <=? 12) && (1 <=? day d) && (day d <=? 31).

(** The aware value of the UTC clock reading [t]. *)
Definition utc (t : Z) : datetime := mk_datetime t (Some 0).

(** ** Strings *)

Lemma string_app_cons (x : ascii) (a b : string) :
  String x a +:+ b = String x (a +:+ b).
Proof. reflexivity. Qed.

Lemma string_app_assoc (a b c : string) : (a +:+ b) +:+ c = a +:+ b +:+ c.
Proof.
  induction a as [|x a IH]; [reflexivity|].
  by rewrite !string_app_cons, IH.
Qed.

Lemma string_app_nil_r (a : string) : a +:+ "" = a.
Proof.
  induction a as [|x a IH]; [reflexivity|].
  by rewrite string_app_cons, IH.
Qed.

Lemma string_length_app (a b : string) :
  String.length (a +:+ b) = (String.length a + String.length b)%nat.
Proof.
  induction a as [|x a IH]; [reflexivity|].
  rewrite string_app_cons. cbn. by rewrite IH.
Qed.

(** Two concatenations that are equal and whose left parts have the same
    length agree part by part. *)
Lemma string_app_inj_l (a1 a2 b1 b2 : string) :
  String.length a1 = String.length a2 →
  a1 +:+ b1 = a2 +:+ b2 → a1 = a2 ∧ b1 = b2.
Proof.
  revert a2. induction a1 as [|x a1 IH]; intros [|y a2] Hlen Heq;
    try discriminate.
  - by split.
  - rewrite !string_app_cons in Heq.
    injection Heq as -> Heq. injection Hlen as Hlen.
    destruct (IH a2 Hlen Heq) as [-> ->]. by split.
Qed.

(** The same with the right parts of equal length. *)
Lemma string_app_inj_r (a1 a2 b1 b2 : string) :
  String.length b1 = String.length b2 →
  a1 +:+ b1 = a2 +:+ b2 → a1 = a2 ∧ b1 = b2.
Proof.
  intros Hlen Heq. apply string_app_inj_l; [|done].
  apply (f_equal String.length) in Heq. rewrite !string_length_app in Heq. lia.
Qed.

(** ** The monad *)

Ltac run_unfold :=
  unfold mbind, M_bind, bind, mret, M_ret, ret, raise, or_raise,
    logger_info, logger_debug, logger_critical, display_dashboard_message,
    emit, gzip_open, shutil_copyfileobj, subprocess_Popen, timezone_now,
    get_solo, save, os_path_exists, os_makedirs.

(** ** Creating the destination folder *)

Lemma ensure_folder_run folder w : ensure_folder folder w = Ok () (ensured folder w).
Proof.
  unfold ensure_folder, ensured. run_unfold. cbn.
  destruct (bool_decide (folder ∈ dirs w)) eqn:E; cbn; [done|].
  by rewrite E.
Qed.

Lemma ensured_exists folder w : folder ∈ dirs (ensured folder w).
Proof.
  unfold ensured. case_bool_decide; [done|]. cbn. set_solver.
Qed.

Lemma ensured_settings folder w : settings_db (ensured folder w) = settings_db w.
Proof. unfold ensured. by case_bool_decide. Qed.

Lemma ensured_archives folder w : archives (ensured folder w) = archives w.
Proof. unfold ensured. by case_bool_decide. Qed.

Lemma ensured_ticks folder w : ticks (ensured folder w) = ticks w.
Proof. unfold ensured. by case_bool_decide. Qed.

(** ** What a call of [create_full] and of [create_partial] does *)

Lemma create_full_run env folder w :
  create_full env folder w =
    let w1 := ensured folder w in
    let file :=
      full_backup_file env folder
        (datetime_date (mk_datetime (clock env (ticks w1)) (Some 0))) in
    let started := Log INFO (" - Creating new full backup: " +:+ file) :: trace w1 in
    match full_command env with
    | inl e =>
        Raise e (mk_world (settings_db w1) (dirs w1) (archives w1) (S (ticks w1)) started)
    | inr command =>
        let c := run env command (child_environ env) in
        Raise (IOError None)
          (mk_world (settings_db w1) (dirs w1)
             (written file 6 (output c) (archives w1))
             (S (ticks w1))
             (DashboardMessage FAILED_MESSAGE
              :: Log CRITICAL " - Unexpected exit code (None) for backup: None"
              :: Log DEBUG " - Backup exit code: None"
              :: Launch command (child_environ env)
              :: GzipOpen file 6
              :: started))
    end.
Proof.
  unfold create_full. unfold mbind at 1, M_bind at 1, bind at 1.
  rewrite ensure_folder_run. cbn zeta.
  destruct (full_command env) as [e|command]; reflexivity.
Qed.

Lemma create_partial_run env folder models w :
  create_partial env folder models w =
    let w1 := ensured folder w in
    let file :=
      partial_backup_file env folder
        (datetime_date (mk_datetime (clock env (ticks w1)) (Some 0))) in
    let started := Log INFO (" - Creating new partial backup: " +:+ file) :: trace w1 in
    match partial_command env models with
    | inl e =>
        Raise e (mk_world (settings_db w1) (dirs w1) (archives w1) (S (ticks w1)) started)
    | inr command =>
        let c := run env command (child_environ env) in
        let code := " - Backup exit code: " +:+ str_int (exit_status c) in
        let launched :=
          Log DEBUG code :: Launch command (child_environ env) :: GzipOpen file 9 :: started in
        if bool_decide (exit_status c = 0) then
          Ok file
            (mk_world (settings_db w1) (dirs w1)
               (written file 9 (output c) (archives w1))
               (S (ticks w1))
               (Log INFO (" - Created and compressed statistics backup: " +:+ file)
                :: launched))
        else
          Raise (IOError None)
            (mk_world (settings_db w1) (dirs w1)
               (written file 9 (output c) (archives w1))
               (S (ticks w1))
               (DashboardMessage FAILED_MESSAGE
                :: Log CRITICAL (" - Unexpected exit code (" +:+ str_int (exit_status c)
                                 +:+ ") for backup: None")
                :: launched))
    end.
Proof.
  unfold create_partial. unfold mbind at 1, M_bind at 1, bind at 1.
  rewrite ensure_folder_run. cbn zeta.
  destruct (partial_command env models) as [e|command]; [reflexivity|].
  run_unfold. cbn.
  destruct (exit_status (run env command (child_environ env))) eqn:E;
    cbn; rewrite ?E; reflexivity.
Qed.

Lemma ensured_launched folder w : launched (trace (ensured folder w)) = launched (trace w).
Proof. unfold ensured. by case_bool_decide. Qed.

Lemma ensured_saves folder w : saves (trace (ensured folder w)) = saves (trace w).
Proof. unfold ensured. by case_bool_decide. Qed.

Lemma ensured_trace folder w : trace (ensured folder w) = made folder w ++ trace w.
Proof. unfold ensured, made. by case_bool_decide. Qed.

Lemma made_launched folder w : launched (made folder w) = [].
Proof. unfold made. by case_bool_decide. Qed.

Lemma made_saves folder w : saves (made folder w) = [].
Proof. unfold made. by case_bool_decide. Qed.

Lemma made_makedirs folder w : folder ∉ dirs w → In (Makedirs folder) (made folder w).
Proof. intros H. unfold made. rewrite bool_decide_eq_false_2 by done. by left. Qed.

(** ** Exit status and outcome (C1) *)

(** [create_partial] does what C1 says: a non-zero exit status raises the
    I/O error after a critical message, a zero one returns the archive. *)
Lemma create_partial_exit_status env folder models w command :
  partial_command env models = inr command →
  let c := run env command (child_environ env) in
  let file :=
    partial_backup_file env folder
      (datetime_date (mk_datetime (clock env (ticks (ensured folder w))) (Some 0))) in
  match create_partial env folder models w with
  | Ok path _ => exit_status c = 0 ∧ path = file
  | Raise e w' =>
      exit_status c ≠ 0 ∧ e = IOError None ∧
      In (Log CRITICAL (" - Unexpected exit code (" +:+ str_int (exit_status c)
                        +:+ ") for backup: None")) (trace w')
  end.
Proof.
  intros Hc. rewrite create_partial_run. cbn zeta. rewrite Hc.
  case_bool_decide; [done|]. split_and!; [done..|]. right. by left.
Qed.

(** C1, where [create_full] departs from it. Whatever the exit status of
    the dump, and so for the status zero too, [create_full] logs a critical
    message and raises the I/O error: it reads [returncode] inside the
    [with] block, where it is still [None], and [None != 0] holds. *)
Theorem create_full_raises_whatever_the_exit_status env folder w command :
  full_command env = inr command →
  ∃ w', create_full env folder w = Raise (IOError None) w'
        ∧ In (Log CRITICAL " - Unexpected exit code (None) for backup: None") (trace w')
        ∧ In (DashboardMessage FAILED_MESSAGE) (trace w').
Proof.
  intros Hc. rewrite create_full_run. cbn zeta. rewrite Hc.
  eexists. split; [reflexivity|]. cbn. split; [right; by left | by left].
Qed.

Lemma create_full_raises_whatever_the_exit_status_witness :
  let env := Fixture.an_env "postgresql" 0 Fixture.noon in
  exit_status (run env ["pg_dump"; "dsmrreader"; "--host=localhost"; "--user=dsmr"]
                 (child_environ env)) = 0
  ∧ ∃ w', create_full env "/backups" (Fixture.a_world Fixture.first_run)
          = Raise (IOError None) w'
          ∧ In (Log CRITICAL " - Unexpected exit code (None) for backup: None") (trace w')
          ∧ In (DashboardMessage FAILED_MESSAGE) (trace w').
Proof.
  split; [reflexivity|].
  apply (create_full_raises_whatever_the_exit_status _ _ _
           ["pg_dump"; "dsmrreader"; "--host=localhost"; "--user=dsmr"]).
  reflexivity.
Defined.

(** The two functions after a dump that exited with status 0, the events
    in the order of occurrence. *)
Example create_partial_after_a_clean_dump :
  let env := Fixture.an_env "postgresql" 0 Fixture.noon in
  let r := create_partial env "/backups" [] (Fixture.a_world Fixture.first_run) in
  r = Ok "/backups/dsmrreader-postgresql-partial-backup-2020-01-01.sql.gz" (world_of r)
  ∧ map (λ e, match e with Log lvl msg => Some (lvl, msg) | _ => None end)
        (rev (trace (world_of r)))
    = [ Some (INFO, " - Creating non-existing backup folder: /backups");
        None;
        Some (INFO, " - Creating new partial backup: /backups/dsmrreader-postgresql-partial-backup-2020-01-01.sql.gz");
        None;
        None;
        Some (DEBUG, " - Backup exit code: 0");
        Some (INFO, " - Created and compressed statistics backup: /backups/dsmrreader-postgresql-partial-backup-2020-01-01.sql.gz") ].
Proof. vm_compute. done. Qed.

Example create_full_after_a_clean_dump :
  let env := Fixture.an_env "postgresql" 0 Fixture.noon in
  let r := create_full env "/backups" (Fixture.a_world Fixture.first_run) in
  r = Raise (IOError None) (world_of r)
  ∧ map (λ e, match e with Log lvl msg => Some (lvl, msg) | _ => None end)
        (rev (trace (world_of r)))
    = [ Some (INFO, " - Creating non-existing backup folder: /backups");
        None;
        Some (INFO, " - Creating new full backup: /backups/dsmrreader-postgresql-backup-Wednesday.sql.gz");
        None;
        None;
        Some (DEBUG, " - Backup exit code: None");
        Some (CRITICAL, " - Unexpected exit code (None) for backup: None");
        None ].
Proof. vm_compute. done. Qed.

(** ** An unsupported vendor (C9) *)

Lemma made_no_gzip folder w path n : ¬ In (GzipOpen path n) (made folder w).
Proof.
  unfold made. case_bool_decide; cbn; [tauto|].
  intros [Hin|[Hin|[]]]; discriminate.
Qed.

Lemma stopped_at_vendor_test folder w msg :
  let w1 := ensured folder w in
  folder_only folder w
    (mk_world (settings_db w1) (dirs w1) (archives w1) (S (ticks w1))
              (Log INFO msg :: trace w1)).
Proof.
  cbn zeta. exists (Log INFO msg :: made folder w). cbn.
  rewrite ensured_trace, ensured_archives, made_launched.
  split_and!; try done.
  - apply ensured_exists.
  - intros Hno. right. by apply made_makedirs.
  - intros path n [Hin|Hin]; [discriminate|]. by apply made_no_gzip in Hin.
Qed.

(** C9. With a vendor that has no dump strategy, [create_full] and
    [create_partial] raise the unsupported-backend error, and by then the
    destination folder exists: the call created it if it was absent. No
    subprocess was launched and no archive opened or written. *)
Theorem unsupported_vendor_leaves_the_folder env folder models w :
  let vendor := connection_vendor env in
  let error := NotImplementedError ("Unsupported backup backend: " +:+ vendor) in
  (vendor ≠ "postgresql" → vendor ≠ "mysql" → vendor ≠ "sqlite" →
     ∃ w', create_full env folder w = Raise error w' ∧ folder_only folder w w')
  ∧ (vendor ≠ "postgresql" → vendor ≠ "mysql" →
     ∃ w', create_partial env folder models w = Raise error w' ∧ folder_only folder w w').
Proof.
  cbn zeta. split.
  - intros H1 H2 H3. rewrite create_full_run. cbn zeta. unfold full_command.
    rewrite !bool_decide_eq_false_2 by done.
    eexists. split; [reflexivity|]. apply stopped_at_vendor_test.
  - intros H1 H2. rewrite create_partial_run. cbn zeta. unfold partial_command.
    rewrite !bool_decide_eq_false_2 by done.
    eexists. split; [reflexivity|]. apply stopped_at_vendor_test.
Qed.

Lemma unsupported_vendor_leaves_the_folder_witness :
  let env := Fixture.an_env "oracle" 0 Fixture.noon in
  let w := Fixture.a_world Fixture.first_run in
  let error := NotImplementedError "Unsupported backup backend: oracle" in
  (∃ w', create_full env "/backups" w = Raise error w' ∧ folder_only "/backups" w w')
  ∧ (∃ w', create_partial env "/backups" [DayStatistics env] w = Raise error w'
           ∧ folder_only "/backups" w w').
Proof.
  cbn zeta.
  destruct (unsupported_vendor_leaves_the_folder
              (Fixture.an_env "oracle" 0 Fixture.noon) "/backups"
              [mk_model "dsmr_stats_daystatistics"]
              (Fixture.a_world Fixture.first_run)) as [Hf Hp].
  split; [apply Hf | apply Hp]; cbn; discriminate.
Defined.

(** SQLite has a full dump but no partial one: the partial call stops at
    the vendor test with the folder made. *)
Example sqlite_partial_leaves_the_folder :
  let env := Fixture.an_env "sqlite" 0 Fixture.noon in
  let r := create_partial env "/backups" [DayStatistics env]
             (Fixture.a_world Fixture.first_run) in
  r = Raise (NotImplementedError "Unsupported backup backend: sqlite") (world_of r)
  ∧ elements (dirs (world_of r)) = ["/backups"]
  ∧ archives (world_of r) = ∅
  ∧ trace (world_of r)
    = [ Log INFO " - Creating new partial backup: /backups/dsmrreader-sqlite-partial-backup-2020-01-01.sql.gz";
        Makedirs "/backups";
        Log INFO " - Creating non-existing backup folder: /backups" ].
Proof. vm_compute. done. Qed.

(** ** The environment of the child (C10) *)

Lemma supported_full env :
  connection_vendor env ∈ ["postgresql"; "mysql"; "sqlite"] →
  ∃ command, full_command env = inr command.
Proof.
  intros Hv. unfold full_command.
  repeat (case_bool_decide; [by eexists|]).
  exfalso. repeat (apply elem_of_cons in Hv as [Hv|Hv]; [congruence|]).
  by apply elem_of_nil in Hv.
Qed.

Lemma supported_partial env models :
  connection_vendor env ∈ ["postgresql"; "mysql"] →
  ∃ command, partial_command env models = inr command.
Proof.
  intros Hv. unfold partial_command.
  repeat (case_bool_decide; [by eexists|]).
  exfalso. repeat (apply elem_of_cons in Hv as [Hv|Hv]; [congruence|]).
  by apply elem_of_nil in Hv.
Qed.

Lemma create_full_launched env folder w :
  launched (trace (world_of (create_full env folder w)))
  = match full_command env with
    | inr command => [(command, child_environ env)]
    | inl _ => []
    end ++ launched (trace w).
Proof.
  rewrite create_full_run. cbn zeta.
  destruct (full_command env); cbn; by rewrite ensured_launched.
Qed.

Lemma create_partial_launched env folder models w :
  launched (trace (world_of (create_partial env folder models w)))
  = match partial_command env models with
    | inr command => [(command, child_environ env)]
    | inl _ => []
    end ++ launched (trace w).
Proof.
  rewrite create_partial_run. cbn zeta.
  destruct (partial_command env models); cbn; [by rewrite ensured_launched|].
  case_bool_decide; cbn; by rewrite ensured_launched.
Qed.

(** C10. Whatever the vendor and the scope, the one command a call launches
    gets an environment of exactly one variable, [PGPASSWORD], bound to the
    configured database password: nothing of the parent's environment, and
    the same for MySQL and SQLite. A vendor without a dump strategy
    launches nothing. *)
Theorem child_environ_is_pgpassword env folder models w :
  let environ : gmap string string := {[ "PGPASSWORD" := DATABASES_PASSWORD env ]} in
  dom environ = {[ "PGPASSWORD" ]}
  ∧ launched (trace (world_of (create_full env folder w)))
    = match full_command env with
      | inr command => [(command, environ)]
      | inl _ => []
      end ++ launched (trace w)
  ∧ launched (trace (world_of (create_partial env folder models w)))
    = match partial_command env models with
      | inr command => [(command, environ)]
      | inl _ => []
      end ++ launched (trace w)
  ∧ (connection_vendor env ∈ ["postgresql"; "mysql"; "sqlite"] →
     ∃ command, full_command env = inr command)
  ∧ (connection_vendor env ∈ ["postgresql"; "mysql"] →
     ∃ command, partial_command env models = inr command).
Proof.
  cbn zeta. split_and!.
  - by rewrite dom_singleton_L.
  - apply create_full_launched.
  - apply create_partial_launched.
  - apply supported_full.
  - apply supported_partial.
Qed.

Lemma child_environ_is_pgpassword_witness :
  let env := Fixture.an_env "mysql" 0 Fixture.noon in
  let w := Fixture.a_world Fixture.first_run in
  launched (trace (world_of (create_full env "/backups" w)))
  = [ ([ "mysqldump"; "--compress"; "--hex-blob"; "--extended-insert"; "--quick";
         "--host"; "localhost"; "--user"; "dsmr"; "--password=secret"; "dsmrreader" ],
       {[ "PGPASSWORD" := "secret" ]}) ]
  ∧ ∃ command, partial_command env [DayStatistics env] = inr command.
Proof.
  cbn zeta.
  destruct (child_environ_is_pgpassword
              (Fixture.an_env "mysql" 0 Fixture.noon) "/backups"
              [mk_model "dsmr_stats_daystatistics"]
              (Fixture.a_world Fixture.first_run)) as (_ & Hf & _ & _ & Hp).
  split; [exact Hf|]. apply Hp. apply list_elem_of_In. cbn. tauto.
Defined.

(** ** The backup directory *)

Lemma get_backup_directory_run env o w :
  get_backup_directory env o w = Ok (resolved env (chosen o (settings_db w))) w.
Proof.
  unfold get_backup_directory, resolved, chosen. run_unfold.
  destruct o as [d|]; [case_bool_decide|];
    cbn -[startswith os_path_abspath os_path_join];
    match goal with |- context [startswith "/" ?p] => by destruct (startswith "/" p) end.
Qed.

(** ** The scheduler *)

Lemma advance_0 w : advance 0 w = w.
Proof. by destruct w. Qed.

Lemma backup_cycle_run env cp cf today w :
  backup_cycle env cp cf today w =
    match cp (archive_folder env today (settings_db w)) [DayStatistics env] w with
    | Raise e w1 => Raise e w1
    | Ok _ w1 =>
        match cf (resolved env (folder (settings_db w1))) w1 with
        | Raise e w2 => Raise e w2
        | Ok _ w2 => Ok () (recorded env w2)
        end
    end.
Proof.
  unfold backup_cycle, archive_folder.
  unfold mbind at 1, M_bind at 1, bind at 1. rewrite get_backup_directory_run.
  unfold mbind at 1, M_bind at 1, bind at 1. cbn [chosen].
  destruct (cp _ _ w) as [p w1|e w1]; [|done].
  unfold mbind at 1, M_bind at 1, bind at 1. rewrite get_backup_directory_run.
  unfold mbind at 1, M_bind at 1, bind at 1. cbn [chosen].
  destruct (cf _ w1) as [[] w2|e w2]; [|done].
  reflexivity.
Qed.

(** The gates of [check], lines 24-41, one after the other. *)
Lemma check_with_run env cp cf w :
  check_with env cp cf w =
    let s := settings_db w in
    let tz := TIME_ZONE env in
    let next n :=
      make_aware tz (datetime_combine (datetime_date (localtime tz (reading env n w)))
                                      (backup_time s)) in
    if negb (daily_backup s) then Ok () w
    else
      match latest_backup s with
      | None =>
          backup_cycle env cp cf (datetime_date (localtime tz (reading env 1 w)))
            (advance 2 w)
      | Some latest =>
          if bool_decide (datetime_date (astimezone 0 latest)
                          = datetime_date (reading env 0 w))
          then Ok () (advance 1 w)
          else if datetime_lt (reading env 2 w) (next 1%nat)
          then Ok () (advance 3 w)
          else backup_cycle env cp cf (datetime_date (localtime tz (reading env 3 w)))
                 (advance 4 w)
      end.
Proof.
  unfold check_with, reading, advance. run_unfold. cbn.
  destruct (daily_backup (settings_db w)); cbn; [|done].
  destruct (latest_backup (settings_db w)) as [latest|]; cbn; [|done].
  case_bool_decide; cbn; [done|].
  by destruct (datetime_lt _ _).
Qed.

Lemma backup_cycle_outcome env cp cf today w0 :
  cycle_outcome env cp cf today w0 (backup_cycle env cp cf today w0).
Proof.
  rewrite backup_cycle_run.
  destruct (cp _ _ w0) as [p w1|e w1] eqn:Hp; [|by apply partial_raised].
  destruct (cf _ w1) as [[] w2|e w2] eqn:Hf.
  - by eapply completed.
  - by eapply full_raised.
Qed.

Lemma check_with_outcome env cp cf w :
  check_outcome env cp cf w (check_with env cp cf w).
Proof.
  rewrite check_with_run. cbn zeta.
  destruct (daily_backup (settings_db w)); cbn [negb].
  2: { rewrite <- (advance_0 w) at 2. apply stopped. }
  destruct (latest_backup (settings_db w)) as [latest|].
  2: { eapply cycled, backup_cycle_outcome. }
  case_bool_decide; [apply stopped|].
  destruct (datetime_lt _ _); [apply stopped|].
  eapply cycled, backup_cycle_outcome.
Qed.

Lemma create_full_keeps_settings env folder : keeps_settings (create_full env folder).
Proof.
  intros w. rewrite create_full_run. cbn zeta.
  destruct (full_command env); cbn; by rewrite ensured_settings, ensured_saves.
Qed.

Lemma create_partial_keeps_settings env folder models :
  keeps_settings (create_partial env folder models).
Proof.
  intros w. rewrite create_partial_run. cbn zeta.
  destruct (partial_command env models); cbn;
    [|case_bool_decide; cbn]; by rewrite ensured_settings, ensured_saves.
Qed.




(** The fourth outcome at work, with two backups that return: the time of
    the sixth reading of the clock is saved as [latest_backup]. *)
Example check_completes_when_both_backups_return :
  let clock := λ n : nat, Fixture.at_utc (mk_date 2020 1 1) 12 (Z.of_nat n) in
  let env := Fixture.an_env "postgresql" 0 clock in
  let yesterday := mk_datetime (Fixture.at_utc (mk_date 2019 12 31) 12 0) (Some 0) in
  let s := mk_settings true (mk_time 2 0 0 0) (Some yesterday) "backups/" in
  let at_1204 := mk_datetime (Fixture.at_utc (mk_date 2020 1 1) 12 4) (Some 0) in
  check_with env (λ _ _, mret "archive.sql.gz") (λ _, mret ()) (Fixture.a_world s)
  = Ok () (mk_world (set_latest_backup s (Some at_1204)) ∅ ∅ 5
                    [SettingsSave (set_latest_backup s (Some at_1204))]).
Proof. vm_compute. reflexivity. Qed.


(** ** The first run (C4) *)



(** The first run at noon with a backup time of 02:00, watched from
    outside: the partial dump is launched, then the full dump. *)
Example first_run_launches_both_dumps :
  let env := Fixture.an_env "postgresql" 0 Fixture.noon in
  rev (launched (trace (world_of (check env (Fixture.a_world Fixture.first_run)))))
  = [ ([ "pg_dump"; "dsmrreader"; "--data-only"; "--host=localhost"; "--user=dsmr";
         "--table=dsmr_stats_daystatistics" ],
       {[ "PGPASSWORD" := "secret" ]});
      ([ "pg_dump"; "dsmrreader"; "--host=localhost"; "--user=dsmr" ],
       {[ "PGPASSWORD" := "secret" ]}) ].
Proof. vm_compute. reflexivity. Qed.

(** ** A backup made earlier today (C3) *)

(** Line 31 compares the dates of two values in UTC: when they are equal,
    [check] reads the clock once and stops. *)
Lemma check_stops_on_same_utc_date env cp cf w latest :
  daily_backup (settings_db w) = true →
  latest_backup (settings_db w) = Some latest →
  datetime_date (astimezone 0 latest) = datetime_date (reading env 0 w) →
  check_with env cp cf w = Ok () (advance 1 w).
Proof.
  intros Hd Hl Heq. rewrite check_with_run. cbn zeta. rewrite Hd, Hl. cbn [negb].
  by rewrite bool_decide_eq_true_2.
Qed.

(** C3, where [check] departs from it. The latest backup and the call lie
    on the same day of the user's time zone, 2 January, yet [check] does
    not stop: the dates that line 31 compares are the UTC ones, 1 and 2
    January. Both dumps are launched again and both archives opened. *)
Theorem check_repeats_the_backup_of_the_local_day :
  let tz := TIME_ZONE SameLocalDay.env in
  let after := world_of (check SameLocalDay.env SameLocalDay.world) in
  datetime_date (localtime tz SameLocalDay.latest) = mk_date 2020 1 2
  ∧ datetime_date (localtime tz (reading SameLocalDay.env 0 SameLocalDay.world))
    = mk_date 2020 1 2
  ∧ map fst (rev (launched (trace after)))
    = [ [ "pg_dump"; "dsmrreader"; "--data-only"; "--host=localhost"; "--user=dsmr";
          "--table=dsmr_stats_daystatistics" ];
        [ "pg_dump"; "dsmrreader"; "--host=localhost"; "--user=dsmr" ] ]
  ∧ rev (opened (trace after))
    = [ ("/home/dsmr/dsmr-reader/backups/archive/2020/01/dsmrreader-postgresql-partial-backup-2020-01-02.sql.gz", 9);
        ("/home/dsmr/dsmr-reader/backups/dsmrreader-postgresql-backup-Thursday.sql.gz", 6) ].
Proof. vm_compute. done. Qed.

(** ** The dump command (C5) *)

Lemma commands_of_same_connection env env' models :
  same_connection env env' →
  full_command env' = full_command env
  ∧ partial_command env' models = partial_command env models.
Proof.
  intros (Hv & Hn & Hh & Hu & Hp & Hpg & Hmy & Hsq).
  unfold full_command, partial_command.
  by rewrite Hv, Hn, Hh, Hu, Hp, Hpg, Hmy, Hsq.
Qed.

Lemma full_command_postgresql env :
  connection_vendor env = "postgresql" →
  full_command env
  = inr [ DSMRREADER_BACKUP_PG_DUMP env; DATABASES_NAME env;
          "--host=" +:+ DATABASES_HOST env; "--user=" +:+ DATABASES_USER env ].
Proof. intros Hv. unfold full_command. by rewrite Hv. Qed.

Lemma partial_command_postgresql env models :
  connection_vendor env = "postgresql" →
  partial_command env models
  = inr ([ DSMRREADER_BACKUP_PG_DUMP env; DATABASES_NAME env; "--data-only";
           "--host=" +:+ DATABASES_HOST env; "--user=" +:+ DATABASES_USER env ]
         ++ map (λ x, "--table=" +:+ db_table x) models).
Proof. intros Hv. unfold partial_command. by rewrite Hv. Qed.

Lemma full_command_unsupported env :
  connection_vendor env ≠ "postgresql" → connection_vendor env ≠ "mysql" →
  connection_vendor env ≠ "sqlite" →
  full_command env = inl (UNSUPPORTED env).
Proof. intros. unfold full_command. by rewrite !bool_decide_eq_false_2. Qed.

Lemma partial_command_unsupported env models :
  connection_vendor env ≠ "postgresql" → connection_vendor env ≠ "mysql" →
  partial_command env models = inl (UNSUPPORTED env).
Proof. intros. unfold partial_command. by rewrite !bool_decide_eq_false_2. Qed.

Lemma create_full_without_command env folder w e :
  full_command env = inl e → ∃ w', create_full env folder w = Raise e w'.
Proof. intros Hc. rewrite create_full_run. cbn zeta. rewrite Hc. by eexists. Qed.

Lemma create_partial_without_command env folder models w e :
  partial_command env models = inl e →
  ∃ w', create_partial env folder models w = Raise e w'.
Proof. intros Hc. rewrite create_partial_run. cbn zeta. rewrite Hc. by eexists. Qed.

(** C5. The command is a function of the vendor, the scope, the tables and
    the connection settings alone: no clock, no file system, no state.
    - PostgreSQL, full: the host and user flags and no table flag.
    - PostgreSQL, partial, for the table [statistics_day]: [--data-only]
      and the one table flag [--table=statistics_day].
    - SQLite, partial, and any other vendor in either scope: no command;
      the call raises the unsupported-backend error.
    A path of [pg_dump] or a database name that itself reads [--table=...]
    is set aside. *)
Theorem dump_command_by_vendor_and_scope env models folder w :
  (∀ env', same_connection env env' →
     full_command env' = full_command env
     ∧ partial_command env' models = partial_command env models)
  ∧ (connection_vendor env = "postgresql" →
     table_flag (DSMRREADER_BACKUP_PG_DUMP env) = false →
     table_flag (DATABASES_NAME env) = false →
     (∃ command, full_command env = inr command
        ∧ In ("--host=" +:+ DATABASES_HOST env) command
        ∧ In ("--user=" +:+ DATABASES_USER env) command
        ∧ List.filter table_flag command = [])
     ∧ (∃ command, partial_command env [mk_model "statistics_day"] = inr command
        ∧ In "--data-only" command
        ∧ List.filter table_flag command = ["--table=statistics_day"]))
  ∧ (connection_vendor env = "sqlite" →
     partial_command env models = inl (UNSUPPORTED env)
     ∧ ∃ w', create_partial env folder models w = Raise (UNSUPPORTED env) w')
  ∧ (connection_vendor env ∉ ["postgresql"; "mysql"; "sqlite"] →
     full_command env = inl (UNSUPPORTED env)
     ∧ partial_command env models = inl (UNSUPPORTED env)
     ∧ (∃ w', create_full env folder w = Raise (UNSUPPORTED env) w')
     ∧ (∃ w', create_partial env folder models w = Raise (UNSUPPORTED env) w')).
Proof.
  split_and!.
  - intros env'. apply commands_of_same_connection.
  - intros Hv Hpg Hname. split.
    + eexists. split; [by apply full_command_postgresql|].
      split_and!; [cbn; tauto..|].
      cbn [List.filter]. by rewrite Hpg, Hname.
    + eexists. split; [by apply partial_command_postgresql|].
      split_and!; [cbn; tauto|].
      cbn [List.filter map app db_table]. by rewrite Hpg, Hname.
  - intros Hv.
    assert (partial_command env models = inl (UNSUPPORTED env)) as Hc.
    { apply partial_command_unsupported; by rewrite Hv. }
    split; [done|]. by apply create_partial_without_command.
  - intros Hv.
    assert (connection_vendor env ≠ "postgresql" ∧ connection_vendor env ≠ "mysql"
            ∧ connection_vendor env ≠ "sqlite") as (H1 & H2 & H3).
    { split_and!; intros Heq; apply Hv; rewrite Heq; apply list_elem_of_In; cbn; tauto. }
    assert (full_command env = inl (UNSUPPORTED env)) as Hf
      by by apply full_command_unsupported.
    assert (partial_command env models = inl (UNSUPPORTED env)) as Hp
      by by apply partial_command_unsupported.
    split_and!; [done..| |].
    + by apply create_full_without_command.
    + by apply create_partial_without_command.
Qed.

Lemma dump_command_by_vendor_and_scope_witness :
  let pg := Fixture.an_env "postgresql" 0 Fixture.noon in
  let oracle := Fixture.an_env "oracle" 0 Fixture.noon in
  let w := Fixture.a_world Fixture.first_run in
  ((∃ command, full_command pg = inr command
      ∧ In "--host=localhost" command
      ∧ In "--user=dsmr" command
      ∧ List.filter table_flag command = [])
   ∧ (∃ command, partial_command pg [mk_model "statistics_day"] = inr command
      ∧ In "--data-only" command
      ∧ List.filter table_flag command = ["--table=statistics_day"]))
  ∧ (full_command oracle = inl (UNSUPPORTED oracle)
     ∧ partial_command oracle [] = inl (UNSUPPORTED oracle)
     ∧ (∃ w', create_full oracle "/backups" w = Raise (UNSUPPORTED oracle) w')
     ∧ (∃ w', create_partial oracle "/backups" [] w = Raise (UNSUPPORTED oracle) w')).
Proof.
  cbn zeta. split.
  - destruct (dump_command_by_vendor_and_scope
                (Fixture.an_env "postgresql" 0 Fixture.noon) [] "/backups"
                (Fixture.a_world Fixture.first_run)) as (_ & Hpg & _ & _).
    apply Hpg; reflexivity.
  - destruct (dump_command_by_vendor_and_scope
                (Fixture.an_env "oracle" 0 Fixture.noon) [] "/backups"
                (Fixture.a_world Fixture.first_run)) as (_ & _ & _ & Hother).
    apply Hother. cbn. intros Hin. apply list_elem_of_In in Hin. cbn in Hin.
    intuition discriminate.
Defined.

(** The commands of the three vendors, as launched. *)
Example commands_of_the_vendors :
  let env v := Fixture.an_env v 0 Fixture.noon in
  full_command (env "postgresql")
  = inr ["pg_dump"; "dsmrreader"; "--host=localhost"; "--user=dsmr"]
  ∧ full_command (env "mysql")
    = inr [ "mysqldump"; "--compress"; "--hex-blob"; "--extended-insert"; "--quick";
            "--host"; "localhost"; "--user"; "dsmr"; "--password=secret"; "dsmrreader" ]
  ∧ full_command (env "sqlite") = inr ["sqlite3"; "dsmrreader"; ".dump"]
  ∧ partial_command (env "mysql") [mk_model "statistics_day"]
    = inr [ "mysqldump"; "--compress"; "--compact"; "--hex-blob"; "--extended-insert";
            "--quick"; "--host"; "localhost"; "--user"; "dsmr"; "--password=secret";
            "dsmrreader"; "statistics_day" ]
  ∧ partial_command (env "sqlite") [mk_model "statistics_day"]
    = inl (NotImplementedError "Unsupported backup backend: sqlite").
Proof. vm_compute. done. Qed.

(** ** Where the password goes (C6) *)

(** C6. For PostgreSQL the argument vector of either scope is built from
    the tool path, the database name, the host and the user and is the same
    whatever the password is; the password reaches the child as the value
    of [PGPASSWORD] in its environment. For MySQL the argument vector of
    either scope holds the flag [--password=] followed by the password. *)
Theorem password_by_environ_or_argv env models folder w :
  (connection_vendor env = "postgresql" →
     (∀ password,
        full_command (with_password env password) = full_command env
        ∧ partial_command (with_password env password) models
          = partial_command env models)
     ∧ (let full :=
          [ DSMRREADER_BACKUP_PG_DUMP env; DATABASES_NAME env;
            "--host=" +:+ DATABASES_HOST env; "--user=" +:+ DATABASES_USER env ] in
        let partial :=
          [ DSMRREADER_BACKUP_PG_DUMP env; DATABASES_NAME env; "--data-only";
            "--host=" +:+ DATABASES_HOST env; "--user=" +:+ DATABASES_USER env ]
          ++ map (λ x, "--table=" +:+ db_table x) models in
        full_command env = inr full
        ∧ partial_command env models = inr partial
        ∧ launched (trace (world_of (create_full env folder w)))
          = (full, {[ "PGPASSWORD" := DATABASES_PASSWORD env ]}) :: launched (trace w)
        ∧ launched (trace (world_of (create_partial env folder models w)))
          = (partial, {[ "PGPASSWORD" := DATABASES_PASSWORD env ]})
            :: launched (trace w)))
  ∧ (connection_vendor env = "mysql" →
     ∃ full partial,
       full_command env = inr full
       ∧ partial_command env models = inr partial
       ∧ In ("--password=" +:+ DATABASES_PASSWORD env) full
       ∧ In ("--password=" +:+ DATABASES_PASSWORD env) partial).
Proof.
  split.
  - intros Hv. split.
    + intros password.
      rewrite !full_command_postgresql, !partial_command_postgresql by done. done.
    + cbn zeta.
      split; [by apply full_command_postgresql|].
      split; [by apply partial_command_postgresql|].
      rewrite create_full_launched, create_partial_launched.
      by rewrite full_command_postgresql, partial_command_postgresql.
  - intros Hv. unfold full_command, partial_command. rewrite Hv. cbn.
    eexists _, _. split_and!; [reflexivity..| |]; cbn; tauto.
Qed.

Lemma password_by_environ_or_argv_witness :
  let pg := Fixture.an_env "postgresql" 0 Fixture.noon in
  let mysql := Fixture.an_env "mysql" 0 Fixture.noon in
  (∀ password,
     full_command (with_password pg password) = full_command pg
     ∧ partial_command (with_password pg password) [DayStatistics pg]
       = partial_command pg [DayStatistics pg])
  ∧ (∃ full partial,
       full_command mysql = inr full
       ∧ partial_command mysql [DayStatistics mysql] = inr partial
       ∧ In "--password=secret" full
       ∧ In "--password=secret" partial).
Proof.
  cbn zeta. split.
  - destruct (password_by_environ_or_argv
                (Fixture.an_env "postgresql" 0 Fixture.noon)
                [mk_model "dsmr_stats_daystatistics"] "/backups"
                (Fixture.a_world Fixture.first_run)) as [Hpg _].
    apply Hpg. reflexivity.
  - destruct (password_by_environ_or_argv
                (Fixture.an_env "mysql" 0 Fixture.noon)
                [mk_model "dsmr_stats_daystatistics"] "/backups"
                (Fixture.a_world Fixture.first_run)) as [_ Hmy].
    apply Hmy. reflexivity.
Defined.

(** ** File names (C7) *)

(** A property of every number of a range, checked number by number. *)
Lemma range_check (P : Z → Prop) `{!∀ n, Decision (P n)} (lo len : Z) :
  bool_decide (Forall P (seqZ lo len)) = true →
  ∀ n, lo ≤ n < lo + len → P n.
Proof.
  intros Hall n Hn. apply bool_decide_eq_true_1 in Hall.
  rewrite Forall_forall in Hall. apply Hall. by apply elem_of_seqZ.
Qed.

Lemma fmt02_length n : 0 ≤ n < 100 → String.length (fmt02 n) = 2%nat.
Proof.
  intros Hn.
  apply (range_check (λ n, String.length (fmt02 n) = 2%nat) 0 100); [|lia].
  vm_compute. reflexivity.
Qed.

Lemma two_digits_fmt02 n : 0 ≤ n < 100 → two_digits (fmt02 n) = n.
Proof.
  intros Hn.
  apply (range_check (λ n, two_digits (fmt02 n) = n) 0 100); [|lia].
  vm_compute. reflexivity.
Qed.

Lemma fmt02_inj a b : 0 ≤ a < 100 → 0 ≤ b < 100 → fmt02 a = fmt02 b → a = b.
Proof.
  intros Ha Hb Heq.
  rewrite <- (two_digits_fmt02 a), <- (two_digits_fmt02 b) by done.
  by rewrite Heq.
Qed.

Lemma date_format_Y_m_d d :
  date_format d "Y-m-d"
  = str_int (year d) +:+ "-" +:+ fmt02 (month d) +:+ "-" +:+ fmt02 (day d).
Proof.
  change (date_format d "Y-m-d")
    with (str_int (year d) +:+ "-" +:+ fmt02 (month d) +:+ "-" +:+ fmt02 (day d) +:+ "").
  by rewrite string_app_nil_r.
Qed.

Lemma date_format_l d : date_format d "l" = WEEKDAYS (weekday d).
Proof.
  change (date_format d "l") with (WEEKDAYS (weekday d) +:+ "").
  by rewrite string_app_nil_r.
Qed.


Lemma partial_backup_file_eq env folder d :
  partial_backup_file env folder d
  = with_sep folder +:+ "dsmrreader-" +:+ connection_vendor env +:+ "-partial-backup-"
    +:+ date_format d "Y-m-d" +:+ ".sql.gz".
Proof.
  unfold partial_backup_file, with_sep, os_path_join, fold_left, os_path_join2.
  change (startswith "/" ("dsmrreader-" +:+ _)) with false. cbn iota.
  destruct (_ || _); [done|]. by rewrite string_app_assoc.
Qed.

Lemma full_backup_file_eq env folder d :
  full_backup_file env folder d
  = with_sep folder +:+ "dsmrreader-" +:+ connection_vendor env +:+ "-backup-"
    +:+ WEEKDAYS (weekday d) +:+ ".sql.gz".
Proof.
  unfold full_backup_file, with_sep, os_path_join, fold_left, os_path_join2.
  change (startswith "/" ("dsmrreader-" +:+ _)) with false. cbn iota.
  rewrite date_format_l.
  destruct (_ || _); [done|]. by rewrite string_app_assoc.
Qed.

Lemma ensured_opened folder w : opened (trace (ensured folder w)) = opened (trace w).
Proof. unfold ensured. by case_bool_decide. Qed.

(** The archive a call opens is the one its file name stands for, at the
    UTC date of the call's reading of the clock. *)
Lemma create_full_opened env folder w command :
  full_command env = inr command →
  opened (trace (world_of (create_full env folder w)))
  = (full_backup_file env folder (datetime_date (reading env 0 w)), 6)
    :: opened (trace w).
Proof.
  intros Hc. rewrite create_full_run. cbn zeta. rewrite Hc. cbn.
  by rewrite ensured_opened, ensured_ticks.
Qed.

Lemma create_partial_opened env folder models w command :
  partial_command env models = inr command →
  opened (trace (world_of (create_partial env folder models w)))
  = (partial_backup_file env folder (datetime_date (reading env 0 w)), 9)
    :: opened (trace w).
Proof.
  intros Hc. rewrite create_partial_run. cbn zeta. rewrite Hc.
  case_bool_decide; cbn; by rewrite ensured_opened, ensured_ticks.
Qed.

Lemma full_backup_file_same_weekday env folder d1 d2 :
  weekday d1 = weekday d2 →
  full_backup_file env folder d1 = full_backup_file env folder d2.
Proof. intros Hw. rewrite !full_backup_file_eq. by rewrite Hw. Qed.





(** The names of one week. *)
Example file_names_of_a_week :
  let env := Fixture.an_env "postgresql" 0 Fixture.noon in
  full_backup_file env "/backups" (mk_date 2020 1 1)
  = "/backups/dsmrreader-postgresql-backup-Wednesday.sql.gz"
  ∧ full_backup_file env "/backups" (mk_date 2020 1 8)
    = "/backups/dsmrreader-postgresql-backup-Wednesday.sql.gz"
  ∧ full_backup_file env "/backups/" (mk_date 2020 1 5)
    = "/backups/dsmrreader-postgresql-backup-Sunday.sql.gz"
  ∧ partial_backup_file env "/backups/archive/2020/01" (mk_date 2020 1 1)
    = "/backups/archive/2020/01/dsmrreader-postgresql-partial-backup-2020-01-01.sql.gz"
  ∧ partial_backup_file env "/backups/archive/2020/01" (mk_date 2020 1 8)
    = "/backups/archive/2020/01/dsmrreader-postgresql-partial-backup-2020-01-08.sql.gz".
Proof. vm_compute. done. Qed.

(** ** The backup directory (C8) *)

Lemma join_cons2 c c' rest :
  join "/" (c :: c' :: rest) = c +:+ String "/" (join "/" (c' :: rest)).
Proof. reflexivity. Qed.

Lemma split_sep s : split "/" (String "/" s) = "" :: split "/" s.
Proof. reflexivity. Qed.

Lemma split_no_sep c : no_sep c = true → split "/" c = [c].
Proof.
  induction c as [|a c IH]; [done|]. cbn [no_sep split].
  intros [Ha Hc]%andb_true_iff. apply negb_true_iff in Ha.
  by rewrite Ha, IH.
Qed.

Lemma split_app c rest :
  no_sep c = true → split "/" (c +:+ String "/" rest) = c :: split "/" rest.
Proof.
  induction c as [|a c IH]; [done|]. cbn [no_sep].
  intros [Ha Hc]%andb_true_iff. apply negb_true_iff in Ha.
  rewrite string_app_cons. cbn [split]. by rewrite Ha, IH.
Qed.

Lemma split_join comps :
  comps ≠ [] → Forall (λ c, no_sep c = true) comps →
  split "/" (join "/" comps) = comps.
Proof.
  induction comps as [|c [|c' rest] IH]; [done|..]; intros _ Hall.
  - apply split_no_sep. by inversion Hall.
  - inversion Hall as [|? ? Hc Hrest]; subst.
    rewrite join_cons2, split_app by done. f_equal. by apply IH.
Qed.

Lemma join_app xs ys :
  xs ≠ [] → ys ≠ [] →
  join "/" (xs ++ ys) = join "/" xs +:+ String "/" (join "/" ys).
Proof.
  intros Hx Hy. induction xs as [|x [|x' xs] IH]; [done|..].
  - destruct ys; [done|]. reflexivity.
  - change ((x :: x' :: xs) ++ ys) with (x :: x' :: (xs ++ ys)).
    rewrite !join_cons2, string_app_assoc, string_app_cons.
    do 2 f_equal. by apply IH.
Qed.

Lemma name_no_sep c : name c → no_sep c = true.
Proof. by intros (_ & _ & _ & H). Qed.

(** A name starts with a character that is no separator. *)
Lemma name_head c : name c → ∃ a t, c = String a t ∧ Ascii.eqb a "/" = false.
Proof.
  intros (Hne & _ & _ & Hs). destruct c as [|a t]; [done|].
  cbn in Hs. apply andb_true_iff in Hs as [Ha _]. apply negb_true_iff in Ha.
  by exists a, t.
Qed.

Lemma join_head c rest :
  name c → ∃ a t, join "/" (c :: rest) = String a t ∧ Ascii.eqb a "/" = false.
Proof.
  intros (a & t & -> & Ha)%name_head. destruct rest as [|c' rest].
  - by exists a, t.
  - rewrite join_cons2, string_app_cons. by eexists _, _.
Qed.

Lemma endswith_char_app ch s c :
  c ≠ "" → endswith_char ch (s +:+ c) = endswith_char ch c.
Proof.
  intros Hc. induction s as [|a s IH]; [done|].
  rewrite string_app_cons. cbn [endswith_char]. rewrite IH.
  destruct (s +:+ c) eqn:E; [|done].
  destruct s; [by destruct c|discriminate].
Qed.

Lemma endswith_char_name c : name c → endswith_char "/" c = false.
Proof.
  intros (Hne & _ & _ & Hs). induction c as [|a c IH]; [done|].
  cbn in Hs. apply andb_true_iff in Hs as [Ha Hs]. apply negb_true_iff in Ha.
  destruct c as [|b c]; [done|]. cbn [endswith_char]. by apply IH.
Qed.

(** The loop of [normpath] keeps names, and [..] takes back the name
    before it. *)
Lemma normpath_loop_names n comps acc :
  Forall name comps → normpath_loop n comps acc = rev acc ++ comps.
Proof.
  revert acc. induction comps as [|c comps IH]; intros acc Hall.
  - cbn. by rewrite app_nil_r.
  - inversion Hall as [|? ? (H1 & H2 & H3 & _) Hrest]; subst.
    cbn [normpath_loop]. rewrite !bool_decide_eq_false_2 by done. cbn [orb negb].
    rewrite IH by done. cbn [rev]. by rewrite <- app_assoc.
Qed.

Lemma normpath_loop_snoc n xs ys acc :
  Forall name xs → normpath_loop n (xs ++ ys) acc = normpath_loop n ys (rev xs ++ acc).
Proof.
  revert acc. induction xs as [|c xs IH]; intros acc Hall; [done|].
  inversion Hall as [|? ? (H1 & H2 & H3 & _) Hrest]; subst.
  cbn [normpath_loop app]. rewrite !bool_decide_eq_false_2 by done. cbn [orb negb].
  rewrite IH by done. cbn [rev]. by rewrite <- app_assoc.
Qed.

Lemma normpath_loop_up n comps c acc :
  name c → normpath_loop n (".." :: comps) (c :: acc) = normpath_loop n comps acc.
Proof.
  intros (_ & _ & H3 & _). cbn [normpath_loop].
  rewrite (bool_decide_eq_false_2 (".." = "")) by done.
  rewrite (bool_decide_eq_false_2 (".." = ".")) by done.
  rewrite (bool_decide_eq_true_2 (".." = "..")) by done.
  rewrite (bool_decide_eq_false_2 (c :: acc = [])) by done.
  rewrite (bool_decide_eq_false_2 (c = "..")) by done.
  by rewrite andb_false_r.
Qed.

(** [normpath] of an absolute path whose components have no separator and
    whose first component is a name. *)
Lemma normpath_rooted c comps :
  name c → Forall (λ x, no_sep x = true) comps →
  os_path_normpath (rooted (c :: comps))
  = "/" +:+ join "/" (normpath_loop 1 (c :: comps) []).
Proof.
  intros Hc Hall. unfold os_path_normpath, rooted.
  destruct (join_head c comps Hc) as (a & t & Hj & Ha).
  change ("/" +:+ join "/" (c :: comps)) with (String "/" (join "/" (c :: comps))).
  rewrite bool_decide_eq_false_2 by done.
  assert (startswith "/" (String "/" (join "/" (c :: comps))) = true) as -> by done.
  assert (startswith "//" (String "/" (join "/" (c :: comps))) = false) as ->.
  { rewrite Hj. cbn [startswith]. by rewrite Ascii.eqb_refl, Ascii.eqb_sym, Ha. }
  cbn [andb]. cbv zeta.
  rewrite split_sep, split_join; [|done|].
  2: { constructor; [by apply name_no_sep|done]. }
  change (normpath_loop 1 ("" :: c :: comps) []) with (normpath_loop 1 (c :: comps) []).
  change (slashes 1) with "/".
  by rewrite bool_decide_eq_false_2.
Qed.

(** An absolute path made of names is its own normal form. *)
Lemma normpath_of_names comps :
  comps ≠ [] → Forall name comps → os_path_normpath (rooted comps) = rooted comps.
Proof.
  intros Hne Hall. destruct comps as [|c comps]; [done|].
  inversion Hall as [|? ? Hc Hrest]; subst.
  rewrite normpath_rooted; [|done|].
  2: { eapply Forall_impl; [exact Hrest|]. apply name_no_sep. }
  by rewrite normpath_loop_names.
Qed.

Lemma rooted_snoc base c : ∃ prefix, rooted (base ++ [c]) = prefix +:+ c.
Proof.
  unfold rooted. destruct base as [|b base].
  - by exists "/".
  - exists ("/" +:+ join "/" (b :: base) +:+ "/").
    rewrite join_app by done. by rewrite !string_app_assoc.
Qed.

Lemma startswith_sep_rooted comps : startswith "/" (rooted comps) = true.
Proof. reflexivity. Qed.

Lemma startswith_sep_join c rest : name c → startswith "/" (join "/" (c :: rest)) = false.
Proof.
  intros (a & t & -> & Ha)%(join_head c rest).
  cbn [startswith]. by rewrite Ascii.eqb_sym, Ha.
Qed.

(** An absolute path made of names resolves to itself. *)
Lemma resolved_absolute env comps :
  comps ≠ [] → Forall name comps → resolved env (rooted comps) = rooted comps.
Proof.
  intros Hne Hall. unfold resolved, os_path_abspath.
  rewrite startswith_sep_rooted. by apply normpath_of_names.
Qed.

(** A relative path made of names resolves to the same names below the
    directory that holds the application's base directory. *)
Lemma resolved_relative env base inner rel :
  Forall name base → name inner → Forall name rel → rel ≠ [] →
  BASE_DIR env = rooted (base ++ [inner]) →
  resolved env (join "/" rel) = rooted (base ++ rel).
Proof.
  intros Hbase Hinner Hrel Hne Hdir.
  destruct rel as [|r rel]; [done|]. inversion Hrel as [|? ? Hr Hrel']; subst.
  unfold resolved. rewrite startswith_sep_join by done.
  assert (os_path_join (BASE_DIR env) [".."; join "/" (r :: rel)]
          = rooted ((base ++ [inner]) ++ ".." :: r :: rel)) as ->.
  { assert (endswith_char "/" (BASE_DIR env) = false) as Hend.
    { rewrite Hdir. destruct (rooted_snoc base inner) as [prefix ->].
      rewrite endswith_char_app by by destruct Hinner.
      by apply endswith_char_name. }
    assert (BASE_DIR env ≠ "") as Hnonempty by by rewrite Hdir.
    unfold os_path_join, fold_left, os_path_join2.
    change (startswith "/" "..") with false. cbn iota.
    rewrite startswith_sep_join by done.
    rewrite (bool_decide_eq_false_2 (BASE_DIR env = "")), Hend by done.
    cbn [orb].
    rewrite (bool_decide_eq_false_2 (_ +:+ _ = "")).
    2: { destruct (BASE_DIR env); [done|]. by rewrite string_app_cons. }
    replace (BASE_DIR env +:+ "/" +:+ "..")
      with ((BASE_DIR env +:+ "/") +:+ "..") by by rewrite string_app_assoc.
    rewrite endswith_char_app by done.
    change (endswith_char "/" "..") with false. cbn [orb].
    rewrite Hdir. unfold rooted.
    rewrite (join_app (base ++ [inner]) (".." :: r :: rel)) by (done || by destruct base).
    rewrite (join_cons2 ".."). by rewrite !string_app_assoc. }
  unfold os_path_abspath. rewrite startswith_sep_rooted.
  assert (Forall (λ x, no_sep x = true) (base ++ [inner] ++ ".." :: r :: rel)) as Hsep.
  { rewrite !Forall_app. split_and!.
    - eapply Forall_impl; [exact Hbase|]. apply name_no_sep.
    - constructor; [by apply name_no_sep|done].
    - constructor; [done|]. constructor; [by apply name_no_sep|].
      eapply Forall_impl; [exact Hrel'|]. apply name_no_sep. }
  assert (normpath_loop 1 ((base ++ [inner]) ++ ".." :: r :: rel) [] = base ++ r :: rel)
    as Hloop.
  { rewrite normpath_loop_snoc by (rewrite Forall_app; split; [done|by constructor]).
    rewrite rev_app_distr, app_nil_r. cbn [rev app].
    rewrite normpath_loop_up by done.
    rewrite normpath_loop_names by done. by rewrite rev_involutive. }
  rewrite <- app_assoc in Hloop. rewrite <- app_assoc.
  destruct base as [|b base].
  - cbn [app] in *. inversion Hsep; subst.
    rewrite normpath_rooted by done. by rewrite Hloop.
  - inversion Hbase; subst. cbn [app] in *. inversion Hsep; subst.
    rewrite normpath_rooted by done. by rewrite Hloop.
Qed.

(** C8. [get_backup_directory] resolves the override, or the folder of the
    settings when the override is missing or empty. A path that starts
    with [/] is returned in its absolute form, which is its normal form
    and depends neither on the base directory nor on the working
    directory; when the path is made of names it is returned as it is. Any
    other path is joined to [BASE_DIR/..] and made absolute; when the base
    directory and the path are made of names, the result is the path below
    the parent of the base directory. The world is left as it was. *)
Theorem backup_directory_resolution env o w :
  let path := chosen o (settings_db w) in
  (startswith "/" path = true →
     get_backup_directory env o w = Ok (os_path_normpath path) w
     ∧ ∀ comps, comps ≠ [] → Forall name comps → path = rooted comps →
         get_backup_directory env o w = Ok path w)
  ∧ (startswith "/" path = false →
     get_backup_directory env o w
     = Ok (os_path_abspath (getcwd env) (os_path_join (BASE_DIR env) [".."; path])) w
     ∧ ∀ base inner rel,
         Forall name base → name inner → Forall name rel → rel ≠ [] →
         BASE_DIR env = rooted (base ++ [inner]) → path = join "/" rel →
         get_backup_directory env o w = Ok (rooted (base ++ rel)) w).
Proof.
  cbn zeta. rewrite get_backup_directory_run. split; intros Hs.
  - split.
    + unfold resolved, os_path_abspath. by rewrite Hs.
    + intros comps Hne Hall ->. by rewrite resolved_absolute.
  - split.
    + unfold resolved. by rewrite Hs.
    + intros base inner rel Hbase Hinner Hrel Hne Hdir ->.
      by rewrite (resolved_relative env base inner rel).
Qed.

Lemma backup_directory_resolution_witness :
  let env := Fixture.an_env "postgresql" 0 Fixture.noon in
  let w := Fixture.a_world Fixture.first_run in
  get_backup_directory env (Some "/var/backups") w = Ok "/var/backups" w
  ∧ get_backup_directory env None w = Ok "/home/dsmr/dsmr-reader/backups" w.
Proof.
  cbn zeta. split.
  - destruct (backup_directory_resolution
                (Fixture.an_env "postgresql" 0 Fixture.noon) (Some "/var/backups")
                (Fixture.a_world Fixture.first_run)) as [Habs _].
    apply Habs; reflexivity.
  - destruct (backup_directory_resolution
                (Fixture.an_env "postgresql" 0 Fixture.noon) None
                (Fixture.a_world Fixture.first_run)) as [_ Hrel].
    apply Hrel; reflexivity.
Defined.

(** The absolute form is the normal form: a trailing separator, [.] and
    [..] go away; an empty override counts as none. *)
Example backup_directories :
  let env := Fixture.an_env "postgresql" 0 Fixture.noon in
  let w := Fixture.a_world Fixture.first_run in
  get_backup_directory env (Some "/var/backups/") w = Ok "/var/backups" w
  ∧ get_backup_directory env (Some "/var/./lib/../backups") w = Ok "/var/backups" w
  ∧ get_backup_directory env (Some "") w = Ok "/home/dsmr/dsmr-reader/backups" w
  ∧ get_backup_directory env (Some "../elsewhere") w = Ok "/home/dsmr/elsewhere" w.
Proof. vm_compute. done. Qed.

(* ===================================================================== *)
(** * Further properties *)
(* ===================================================================== *)

(** ** The calendar *)

Lemma holds_from_spec P lo len :
  holds_from P lo len = true → ∀ n, lo ≤ n < lo + Z.of_N len → P n = true.
Proof.
  unfold holds_from.
  assert (∀ k, snd (N.iter k (check_step P) (true, lo)) = lo + Z.of_N k
               ∧ (fst (N.iter k (check_step P) (true, lo)) = true →
                  ∀ n, lo ≤ n < lo + Z.of_N k → P n = true)) as Hiter.
  { intros k. induction k as [|k [IHs IHf]] using N.peano_ind.
    - cbn. split; [lia|]. intros _ n Hn. lia.
    - rewrite N.iter_succ. unfold check_step at 1 3. cbn [fst snd].
      rewrite IHs. split; [lia|].
      intros [Hf Hp]%andb_true_iff n Hn.
      destruct (decide (n = lo + Z.of_N k)) as [->|Hne]; [done|].
      apply IHf; [done|lia]. }
  intros Hall. by apply (Hiter len).
Qed.

(** The days of one cycle of 400 years, one by one. *)
Lemma days_of_a_cycle_ok : holds_from day_ok 1 146097 = true.
Proof. vm_compute. reflexivity. Qed.

(** The calendar repeats after 400 years. *)
Lemma ord2ymd_shift n k : ord2ymd (n + k * DI400Y) = shift_year (400 * k) (ord2ymd n).
Proof.
  unfold ord2ymd.
  replace (n + k * DI400Y - 1) with ((n - 1) + k * DI400Y) by lia.
  rewrite Z_div_plus_full, Z_mod_plus_full by done.
  cbv zeta. unfold shift_year.
  repeat match goal with
         | |- context [if ?b then _ else _] => destruct b
         end; cbn [year month day]; f_equal; lia.
Qed.

Lemma is_leap_shift y k : is_leap (y + 400 * k) = is_leap y.
Proof.
  unfold is_leap.
  replace ((y + 400 * k) mod 4) with (y mod 4)
    by (replace (y + 400 * k) with (y + (100 * k) * 4) by lia;
        by rewrite Z_mod_plus_full).
  replace ((y + 400 * k) mod 100) with (y mod 100)
    by (replace (y + 400 * k) with (y + (4 * k) * 100) by lia;
        by rewrite Z_mod_plus_full).
  replace ((y + 400 * k) mod 400) with (y mod 400)
    by (replace (y + 400 * k) with (y + k * 400) by lia;
        by rewrite Z_mod_plus_full).
  done.
Qed.

Lemma days_before_year_shift y k :
  days_before_year (y + 400 * k) = days_before_year y + k * DI400Y.
Proof.
  unfold days_before_year, DI400Y. cbv zeta.
  replace ((y + 400 * k - 1) / 4) with ((y - 1) / 4 + 100 * k)
    by (replace (y + 400 * k - 1) with ((y - 1) + (100 * k) * 4) by lia;
        by rewrite Z_div_plus_full).
  replace ((y + 400 * k - 1) / 100) with ((y - 1) / 100 + 4 * k)
    by (replace (y + 400 * k - 1) with ((y - 1) + (4 * k) * 100) by lia;
        by rewrite Z_div_plus_full).
  replace ((y + 400 * k - 1) / 400) with ((y - 1) / 400 + k)
    by (replace (y + 400 * k - 1) with ((y - 1) + k * 400) by lia;
        by rewrite Z_div_plus_full).
  lia.
Qed.

Lemma ymd2ord_shift d k : ymd2ord (shift_year (400 * k) d) = ymd2ord d + k * DI400Y.
Proof.
  unfold ymd2ord, shift_year, days_before_month. cbn [year month day].
  rewrite days_before_year_shift, is_leap_shift. lia.
Qed.

Lemma day_ok_in_cycle r : 1 ≤ r < 146098 → day_ok r = true.
Proof.
  intros Hr. apply (holds_from_spec day_ok 1 146097 days_of_a_cycle_ok). lia.
Qed.

Lemma day_ok_spec n :
  day_ok n = true →
  ymd2ord (ord2ymd n) = n ∧ 1 ≤ month (ord2ymd n) ≤ 12 ∧ 1 ≤ day (ord2ymd n) ≤ 31.
Proof.
  unfold day_ok. cbv zeta. rewrite !andb_true_iff.
  intros ((((H1 & H2) & H3) & H4) & H5). lia.
Qed.

(** [_ord2ymd] and [_ymd2ord] on every day: the date of the day [n] leads
    back to [n], with a month from 1 to 12 and a day from 1 to 31. *)
Lemma ord2ymd_ok n :
  ymd2ord (ord2ymd n) = n
  ∧ 1 ≤ month (ord2ymd n) ≤ 12 ∧ 1 ≤ day (ord2ymd n) ≤ 31.
Proof.
  assert (∃ r k, n = r + k * DI400Y ∧ 1 ≤ r < 146098) as (r & k & -> & Hr).
  { exists ((n - 1) mod DI400Y + 1), ((n - 1) / DI400Y).
    pose proof (Z_div_mod_eq_full (n - 1) DI400Y).
    pose proof (Z.mod_pos_bound (n - 1) DI400Y). unfold DI400Y in *. lia. }
  destruct (day_ok_spec r (day_ok_in_cycle r Hr)) as (H1 & H2 & H3).
  rewrite ord2ymd_shift, ymd2ord_shift. unfold shift_year. cbn [month day].
  lia.
Qed.

Lemma ord2ymd_inj n1 n2 : ord2ymd n1 = ord2ymd n2 → n1 = n2.
Proof.
  intros Heq. rewrite <- (proj1 (ord2ymd_ok n1)), <- (proj1 (ord2ymd_ok n2)).
  by rewrite Heq.
Qed.

Lemma weekday_ord2ymd n : weekday (ord2ymd n) = (n + 6) mod 7.
Proof. unfold weekday. by rewrite (proj1 (ord2ymd_ok n)). Qed.

(** ** File names along the calendar *)

Lemma date_format_Y_m_d_inj_in_range d1 d2 :
  1 ≤ month d1 ≤ 12 → 1 ≤ day d1 ≤ 31 → 1 ≤ month d2 ≤ 12 → 1 ≤ day d2 ≤ 31 →
  date_format d1 "Y-m-d" = date_format d2 "Y-m-d" → d1 = d2.
Proof.
  intros Hm1 Hd1 Hm2 Hd2. rewrite !date_format_Y_m_d. intros Heq.
  apply string_app_inj_r in Heq as [Hy Heq].
  2: { rewrite !string_length_app, !fmt02_length by lia. done. }
  apply (inj pretty) in Hy.
  apply (inj (String.app "-")) in Heq.
  apply string_app_inj_l in Heq as [Hm Heq]; [|by rewrite !fmt02_length by lia].
  apply (inj (String.app "-")) in Heq.
  apply fmt02_inj in Hm; [|lia..]. apply fmt02_inj in Heq; [|lia..].
  destruct d1, d2; cbn in *; congruence.
Qed.

Lemma WEEKDAYS_inj a b : 0 ≤ a < 7 → 0 ≤ b < 7 → WEEKDAYS a = WEEKDAYS b → a = b.
Proof.
  intros Ha Hb.
  assert (a = 0 ∨ a = 1 ∨ a = 2 ∨ a = 3 ∨ a = 4 ∨ a = 5 ∨ a = 6) as Hcase_a by lia.
  assert (b = 0 ∨ b = 1 ∨ b = 2 ∨ b = 3 ∨ b = 4 ∨ b = 5 ∨ b = 6) as Hcase_b by lia.
  destruct Hcase_a as [->|[->|[->|[->|[->|[->| ->]]]]]];
    destruct Hcase_b as [->|[->|[->|[->|[->|[->| ->]]]]]];
    cbn; intros Heq; (reflexivity || discriminate Heq).
Qed.

Lemma weekday_range d : 0 ≤ weekday d < 7.
Proof. unfold weekday. by apply Z.mod_pos_bound. Qed.

(** Partial backups on the UTC calendar: two calls into the same folder
    write the same file exactly when their readings of the clock fall on
    the same UTC day. A second partial backup on one day replaces the
    first; backups of different days never share a file. *)
Theorem partial_name_per_utc_day env folder t1 t2 :
  partial_backup_file env folder (datetime_date (utc t1))
  = partial_backup_file env folder (datetime_date (utc t2))
  ↔ t1 / USEC_PER_DAY = t2 / USEC_PER_DAY.
Proof.
  unfold datetime_date, utc. cbn [wall]. split.
  - rewrite !partial_backup_file_eq. intros Heq.
    do 4 apply (inj (String.app _)) in Heq.
    apply string_app_inj_r in Heq as [Heq _]; [|done].
    apply date_format_Y_m_d_inj_in_range in Heq; try apply ord2ymd_ok.
    apply ord2ymd_inj in Heq. lia.
  - by intros ->.
Qed.

(** Full backups on the UTC calendar: two calls into the same folder write
    the same file exactly when their days lie a multiple of seven days
    apart. A folder so never holds more than seven full backups of one
    vendor, and the backup of a day replaces the one of a week before. *)
Theorem full_name_per_weekday env folder t1 t2 :
  full_backup_file env folder (datetime_date (utc t1))
  = full_backup_file env folder (datetime_date (utc t2))
  ↔ (t1 / USEC_PER_DAY) mod 7 = (t2 / USEC_PER_DAY) mod 7.
Proof.
  unfold datetime_date, utc. cbn [wall].
  assert (∀ t, weekday (ord2ymd (t / USEC_PER_DAY + 1)) = (t / USEC_PER_DAY) mod 7) as Hw.
  { intros t. rewrite weekday_ord2ymd.
    replace (t / USEC_PER_DAY + 1 + 6) with (t / USEC_PER_DAY + 1 * 7) by lia.
    by rewrite Z_mod_plus_full. }
  split.
  - rewrite !full_backup_file_eq. intros Heq.
    do 4 apply (inj (String.app _)) in Heq.
    apply string_app_inj_r in Heq as [Heq _]; [|done].
    apply WEEKDAYS_inj in Heq; try apply weekday_range.
    by rewrite !Hw in Heq.
  - intros Heq. apply full_backup_file_same_weekday. by rewrite !Hw.
Qed.

(** A week of backups made at noon: seven full names, then the first one
    again. *)
Example full_names_repeat_after_a_week :
  let env := Fixture.an_env "postgresql" 0 Fixture.noon in
  let name_on d := full_backup_file env "/backups" (datetime_date (utc (Fixture.at_utc d 12 0))) in
  NoDup (map name_on [ mk_date 2020 2 26; mk_date 2020 2 27; mk_date 2020 2 28;
                       mk_date 2020 2 29; mk_date 2020 3 1; mk_date 2020 3 2;
                       mk_date 2020 3 3 ])
  ∧ name_on (mk_date 2020 3 4) = name_on (mk_date 2020 2 26).
Proof.
  cbn zeta. split; [|vm_compute; reflexivity].
  apply (bool_decide_unpack _). vm_compute. exact I.
Qed.

(** ** The gates of the scheduler *)

(** With daily backups switched off, [check] returns at once: it reads
    neither the clock nor the disk and calls nothing. *)
Theorem check_disabled_does_nothing env cp cf w :
  daily_backup (settings_db w) = false → check_with env cp cf w = Ok () w.
Proof. intros Hd. rewrite check_with_run. cbn zeta. by rewrite Hd. Qed.

Lemma check_disabled_does_nothing_witness :
  let env := Fixture.an_env "postgresql" 0 Fixture.noon in
  let w := Fixture.a_world (mk_settings false (mk_time 2 0 0 0) None "backups/") in
  check env w = Ok () w.
Proof.
  cbn zeta.
  apply (check_disabled_does_nothing
           (Fixture.an_env "postgresql" 0 Fixture.noon)
           (create_partial (Fixture.an_env "postgresql" 0 Fixture.noon))
           (create_full (Fixture.an_env "postgresql" 0 Fixture.noon))
           (Fixture.a_world (mk_settings false (mk_time 2 0 0 0) None "backups/"))).
  reflexivity.
Defined.

Lemma check_stops_on_same_utc_date_witness :
  let clock := λ _ : nat, Fixture.at_utc (mk_date 2020 1 1) 23 0 in
  let env := Fixture.an_env "postgresql" 0 clock in
  let latest := utc (Fixture.at_utc (mk_date 2020 1 1) 1 0) in
  let w := Fixture.a_world (mk_settings true (mk_time 2 0 0 0) (Some latest) "backups/") in
  check env w = Ok () (advance 1 w).
Proof.
  cbn zeta.
  apply (check_stops_on_same_utc_date
           (Fixture.an_env "postgresql" 0 (λ _, Fixture.at_utc (mk_date 2020 1 1) 23 0))
           _ _ _ (utc (Fixture.at_utc (mk_date 2020 1 1) 1 0))); reflexivity.
Defined.




(** ** What the two backups leave behind *)

Lemma full_command_error env e : full_command env = inl e → e = UNSUPPORTED env.
Proof.
  unfold full_command, UNSUPPORTED.
  repeat (case_bool_decide; [discriminate|]). congruence.
Qed.


Lemma ensured_dirs folder w : dirs w ⊆ dirs (ensured folder w).
Proof. unfold ensured. case_bool_decide; [done|]. cbn. set_solver. Qed.

(** [create_full] never returns. *)
Lemma create_full_raises env folder w :
  ∃ e, create_full env folder w = Raise e (world_of (create_full env folder w))
       ∧ (e = UNSUPPORTED env ∨ e = IOError None).
Proof.
  rewrite create_full_run. cbn zeta.
  destruct (full_command env) as [e|command] eqn:Hc.
  - exists e. split; [done|]. left. by apply full_command_error.
  - exists (IOError None). split; [done|]. by right.
Qed.



Lemma create_partial_world env folder models w :
  let w' := world_of (create_partial env folder models w) in
  folder ∈ dirs w' ∧ dirs w ⊆ dirs w' ∧ ticks w' = S (ticks w).
Proof.
  cbn zeta. rewrite create_partial_run. cbn zeta.
  destruct (partial_command env models); [|case_bool_decide]; cbn;
    rewrite ensured_ticks; split_and!; auto using ensured_exists, ensured_dirs.
Qed.


Lemma written_lookup file n data (a : gmap string archive) :
  written file n data a !! file = Some (mk_archive n data).
Proof.
  unfold written. rewrite lookup_alter_eq, lookup_insert_eq. reflexivity.
Qed.

Lemma written_lookup_ne file n data (a : gmap string archive) path :
  path ≠ file → written file n data a !! path = a !! path.
Proof.
  intros Hne. unfold written.
  rewrite lookup_alter_ne, lookup_insert_ne by done. reflexivity.
Qed.

(** Once a dump has been launched, the archive of the call holds what the
    child wrote, its error messages included, and nothing of what the file
    held before, whatever the exit status; every other archive is as it
    was. The full backup is compressed at level 6, the partial one at
    level 9. *)
Theorem archive_holds_the_output env folder models w :
  (∀ command, full_command env = inr command →
     let file := full_backup_file env folder (datetime_date (reading env 0 w)) in
     let after := archives (world_of (create_full env folder w)) in
     after !! file = Some (mk_archive 6 (output (run env command (child_environ env))))
     ∧ ∀ path, path ≠ file → after !! path = archives w !! path)
  ∧ (∀ command, partial_command env models = inr command →
     let file := partial_backup_file env folder (datetime_date (reading env 0 w)) in
     let after := archives (world_of (create_partial env folder models w)) in
     after !! file = Some (mk_archive 9 (output (run env command (child_environ env))))
     ∧ ∀ path, path ≠ file → after !! path = archives w !! path).
Proof.
  split; intros command Hc; cbn zeta.
  - rewrite create_full_run. cbn zeta. rewrite Hc. cbn [world_of archives].
    rewrite ensured_ticks, ensured_archives. unfold reading. cbn [Nat.add].
    split; [apply written_lookup|]. intros path Hne. by apply written_lookup_ne.
  - rewrite create_partial_run. cbn zeta. rewrite Hc.
    case_bool_decide; cbn [world_of archives];
      rewrite ensured_ticks, ensured_archives; unfold reading; cbn [Nat.add];
      (split; [apply written_lookup|]); intros path Hne; by apply written_lookup_ne.
Qed.

Lemma archive_holds_the_output_witness :
  let env := Fixture.an_env "postgresql" 3 Fixture.noon in
  let w := Fixture.a_world Fixture.first_run in
  archives (world_of (create_partial env "/backups" [] w))
  !! "/backups/dsmrreader-postgresql-partial-backup-2020-01-01.sql.gz"
  = Some (mk_archive 9 "-- dump").
Proof.
  cbn zeta.
  destruct (archive_holds_the_output
              (Fixture.an_env "postgresql" 3 Fixture.noon) "/backups" []
              (Fixture.a_world Fixture.first_run)) as [_ Hp].
  apply (Hp ["pg_dump"; "dsmrreader"; "--data-only"; "--host=localhost"; "--user=dsmr"]).
  reflexivity.
Defined.

(** For a vendor with a partial dump, [create_partial] returns exactly
    when the dump exits with status 0, and then it returns the path of the
    archive. Any other status ends in the I/O error, after the critical
    message that shows the status. *)
Theorem create_partial_by_exit_status env folder models w command :
  partial_command env models = inr command →
  let status := exit_status (run env command (child_environ env)) in
  let file := partial_backup_file env folder (datetime_date (reading env 0 w)) in
  (status = 0 → ∃ w', create_partial env folder models w = Ok file w')
  ∧ (status ≠ 0 →
     ∃ w', create_partial env folder models w = Raise (IOError None) w'
           ∧ In (Log CRITICAL (" - Unexpected exit code (" +:+ str_int status
                               +:+ ") for backup: None")) (trace w')).
Proof.
  intros Hc. cbn zeta. rewrite create_partial_run. cbn zeta. rewrite Hc.
  rewrite ensured_ticks. unfold reading. cbn [Nat.add].
  split; intros Hs.
  - rewrite bool_decide_eq_true_2 by done. by eexists.
  - rewrite bool_decide_eq_false_2 by done. eexists. split; [done|].
    right. by left.
Qed.

Lemma create_partial_by_exit_status_witness :
  let env := Fixture.an_env "mysql" 2 Fixture.noon in
  let w := Fixture.a_world Fixture.first_run in
  ∃ w', create_partial env "/backups" [DayStatistics env] w = Raise (IOError None) w'
        ∧ In (Log CRITICAL " - Unexpected exit code (2) for backup: None") (trace w').
Proof.
  cbn zeta.
  destruct (create_partial_by_exit_status
              (Fixture.an_env "mysql" 2 Fixture.noon) "/backups"
              [mk_model "dsmr_stats_daystatistics"]
              (Fixture.a_world Fixture.first_run)
              [ "mysqldump"; "--compress"; "--compact"; "--hex-blob";
                "--extended-insert"; "--quick"; "--host"; "localhost"; "--user";
                "dsmr"; "--password=secret"; "dsmrreader";
                "dsmr_stats_daystatistics" ]
              eq_refl) as [_ Hfail].
  apply Hfail. discriminate.
Defined.

(** ** The scheduler with the module's own backups *)

Lemma create_partial_keeps env folder models w :
  let w' := world_of (create_partial env folder models w) in
  settings_db w' = settings_db w ∧ saves (trace w') = saves (trace w).
Proof. apply create_partial_keeps_settings. Qed.

Lemma create_full_keeps env folder w :
  let w' := world_of (create_full env folder w) in
  settings_db w' = settings_db w ∧ saves (trace w') = saves (trace w).
Proof. apply create_full_keeps_settings. Qed.

(** A cycle with the module's own backups ends where the partial backup
    raised, or else where the full backup did. *)
Lemma module_cycle_run env today w :
  backup_cycle env (create_partial env) (create_full env) today w
  = match create_partial env (archive_folder env today (settings_db w))
            [DayStatistics env] w with
    | Raise e w1 => Raise e w1
    | Ok _ w1 => create_full env (resolved env (folder (settings_db w))) w1
    end.
Proof.
  rewrite backup_cycle_run.
  destruct (create_partial env _ _ w) as [p w1|e w1] eqn:Hp; [|done].
  destruct (create_partial_keeps env (archive_folder env today (settings_db w))
              [DayStatistics env] w) as [Hs _].
  rewrite Hp in Hs. cbn [world_of] in Hs. rewrite Hs.
  destruct (create_full_raises env (resolved env (folder (settings_db w))) w1)
    as (e & He & _).
  by rewrite He.
Qed.


Lemma create_partial_unsupported_run env folder models w e :
  partial_command env models = inl e →
  ∃ msg, create_partial env folder models w
         = Raise e (mk_world (settings_db (ensured folder w)) (dirs (ensured folder w))
                             (archives (ensured folder w)) (S (ticks (ensured folder w)))
                             (Log INFO msg :: trace (ensured folder w))).
Proof. intros Hc. rewrite create_partial_run. cbn zeta. rewrite Hc. by eexists. Qed.

(** With a vendor that has no partial dump, SQLite among them, a due call
    of [check] fails at the partial backup: no dump is launched and no
    archive opened or changed, the full backup included. *)
Theorem check_without_partial_dump env w :
  connection_vendor env ≠ "postgresql" → connection_vendor env ≠ "mysql" →
  let after := world_of (check env w) in
  launched (trace after) = launched (trace w)
  ∧ opened (trace after) = opened (trace w)
  ∧ archives after = archives w.
Proof.
  intros H1 H2. cbn zeta. unfold check.
  pose proof (partial_command_unsupported env [DayStatistics env] H1 H2) as Hc.
  destruct (check_with_outcome env (create_partial env) (create_full env) w)
    as [n | n today r Hr]; [done|].
  destruct Hr as [e w1 Hp | p w1 e w2 Hp Hf | p w1 w2 Hp Hf];
    match type of Hp with
    | create_partial ?e ?f ?m ?w0 = _ =>
        destruct (create_partial_unsupported_run e f m w0 _ Hc) as [msg Hrun]
    end;
    rewrite Hrun in Hp; [|discriminate..].
  injection Hp as _ <-. cbn [world_of trace archives].
  change (launched (Log INFO msg :: ?t)) with (launched t).
  change (opened (Log INFO msg :: ?t)) with (opened t).
  by rewrite ensured_launched, ensured_opened, ensured_archives.
Qed.

Lemma check_without_partial_dump_witness :
  let env := Fixture.an_env "sqlite" 0 Fixture.noon in
  let after := world_of (check env (Fixture.a_world Fixture.first_run)) in
  launched (trace after) = [] ∧ opened (trace after) = [] ∧ archives after = ∅.
Proof.
  cbn zeta.
  apply (check_without_partial_dump
           (Fixture.an_env "sqlite" 0 Fixture.noon)
           (Fixture.a_world Fixture.first_run)); discriminate.
Defined.

(** A cycle with a vendor that has both dumps, PostgreSQL or MySQL. The
    partial dump is launched first, into [archive/<year>/<month>] of the
    local date, under the name of the UTC date. When it exits with a
    status other than zero the cycle stops there: the full dump is not
    launched and the full backup of the weekday is not opened. When it
    exits with zero the full dump follows, into the backup directory. *)
Theorem cycle_dumps env today w partial full :
  partial_command env [DayStatistics env] = inr partial →
  full_command env = inr full →
  let after := world_of (backup_cycle env (create_partial env) (create_full env) today w) in
  let partial_file :=
    partial_backup_file env (archive_folder env today (settings_db w))
      (datetime_date (reading env 0 w)) in
  let full_file :=
    full_backup_file env (resolved env (folder (settings_db w)))
      (datetime_date (reading env 1 w)) in
  if bool_decide (exit_status (run env partial (child_environ env)) = 0) then
    launched (trace after)
    = [(full, child_environ env); (partial, child_environ env)] ++ launched (trace w)
    ∧ opened (trace after) = [(full_file, 6); (partial_file, 9)] ++ opened (trace w)
  else
    launched (trace after) = [(partial, child_environ env)] ++ launched (trace w)
    ∧ opened (trace after) = [(partial_file, 9)] ++ opened (trace w).
Proof.
  intros Hp Hf. cbn zeta. rewrite module_cycle_run.
  pose proof (create_partial_launched env (archive_folder env today (settings_db w))
                [DayStatistics env] w) as Hl.
  pose proof (create_partial_opened env (archive_folder env today (settings_db w))
                [DayStatistics env] w partial Hp) as Ho.
  pose proof (create_partial_exit_status env (archive_folder env today (settings_db w))
                [DayStatistics env] w partial Hp) as Hs.
  destruct (create_partial_world env (archive_folder env today (settings_db w))
              [DayStatistics env] w) as (_ & _ & Ht).
  rewrite Hp in Hl. cbn zeta in Hs.
  destruct (create_partial env _ _ w) as [p w1|e w1]; cbn [world_of] in *.
  - destruct Hs as [Hzero _]. rewrite bool_decide_eq_true_2 by done.
    rewrite create_full_launched, Hf, Hl.
    rewrite (create_full_opened env _ w1 full Hf), Ho.
    unfold reading. rewrite Ht. done.
  - destruct Hs as [Hnonzero _]. rewrite bool_decide_eq_false_2 by done. done.
Qed.

Lemma cycle_dumps_witness :
  let env := Fixture.an_env "postgresql" 1 Fixture.noon in
  let w := Fixture.a_world Fixture.first_run in
  let after :=
    world_of (backup_cycle env (create_partial env) (create_full env) (mk_date 2020 1 1) w) in
  launched (trace after)
  = [ ([ "pg_dump"; "dsmrreader"; "--data-only"; "--host=localhost"; "--user=dsmr";
         "--table=dsmr_stats_daystatistics" ], child_environ env) ]
  ∧ opened (trace after)
    = [ ("/home/dsmr/dsmr-reader/backups/archive/2020/01/dsmrreader-postgresql-partial-backup-2020-01-01.sql.gz", 9) ].
Proof.
  cbn zeta.
  apply (cycle_dumps
           (Fixture.an_env "postgresql" 1 Fixture.noon) (mk_date 2020 1 1)
           (Fixture.a_world Fixture.first_run)
           [ "pg_dump"; "dsmrreader"; "--data-only"; "--host=localhost"; "--user=dsmr";
             "--table=dsmr_stats_daystatistics" ]
           [ "pg_dump"; "dsmrreader"; "--host=localhost"; "--user=dsmr" ]);
    reflexivity.
Defined.

(** Half an hour before midnight UTC on 31 January, in a zone one hour
    east: the folder is the one of February, the local month, and the name
    the one of 31 January, the UTC date. *)
Example partial_backup_around_midnight :
  let clock := λ _ : nat, Fixture.at_utc (mk_date 2020 1 31) 23 30 in
  let env := Fixture.an_env "postgresql" 1 clock in
  opened (trace (world_of (check env (Fixture.a_world Fixture.first_run))))
  = [ ("/home/dsmr/dsmr-reader/backups/archive/2020/02/dsmrreader-postgresql-partial-backup-2020-01-31.sql.gz", 9) ].
Proof. vm_compute. reflexivity. Qed.

(** ** The backup directory is absolute *)

Lemma startswith_sep_nonempty p : startswith "/" p = true → ∃ t, p = String "/" t.
Proof.
  destruct p as [|a t]; [discriminate|]. cbn [startswith].
  destruct (Ascii.eqb_spec "/" a) as [<-|]; [|discriminate]. by exists t.
Qed.

Lemma normpath_absolute p :
  startswith "/" p = true → startswith "/" (os_path_normpath p) = true.
Proof.
  intros Hp. destruct (startswith_sep_nonempty p Hp) as [t ->].
  unfold os_path_normpath. rewrite bool_decide_eq_false_2 by done. rewrite Hp.
  cbv zeta.
  destruct (startswith "//" (String "/" t) && negb (startswith "///" (String "/" t)));
    cbn [slashes]; rewrite !string_app_cons;
    by rewrite bool_decide_eq_false_2.
Qed.

Lemma join2_absolute a b :
  startswith "/" a = true → startswith "/" (os_path_join2 a b) = true.
Proof.
  intros Ha. unfold os_path_join2.
  destruct (startswith "/" b) eqn:Hb; [done|].
  destruct (startswith_sep_nonempty a Ha) as [t ->].
  by destruct (_ || _); rewrite string_app_cons.
Qed.

Lemma abspath_absolute cwd p :
  startswith "/" cwd = true → startswith "/" (os_path_abspath cwd p) = true.
Proof.
  intros Hcwd. unfold os_path_abspath.
  destruct (startswith "/" p) eqn:Hp; apply normpath_absolute; [done|].
  cbn [os_path_join fold_left]. by apply join2_absolute.
Qed.

(** Run from an absolute working directory, [get_backup_directory] returns
    an absolute path for every override and every folder setting, the
    empty ones included, and changes nothing. *)
Theorem backup_directory_is_absolute env o w :
  startswith "/" (getcwd env) = true →
  ∃ directory, get_backup_directory env o w = Ok directory w
               ∧ startswith "/" directory = true.
Proof.
  intros Hcwd. rewrite get_backup_directory_run. eexists. split; [done|].
  unfold resolved.
  destruct (startswith "/" (chosen o (settings_db w))); by apply abspath_absolute.
Qed.

Lemma backup_directory_is_absolute_witness :
  let env := Fixture.an_env "postgresql" 0 Fixture.noon in
  let w := Fixture.a_world (mk_settings true (mk_time 2 0 0 0) None "") in
  ∃ directory, get_backup_directory env (Some "") w = Ok directory w
               ∧ startswith "/" directory = true.
Proof.
  cbn zeta.
  apply (backup_directory_is_absolute
           (Fixture.an_env "postgresql" 0 Fixture.noon) (Some "")
           (Fixture.a_world (mk_settings true (mk_time 2 0 0 0) None ""))).
  reflexivity.
Defined.

(** ** The partial command beside the full one *)

(** For the two vendors with a partial dump, the partial command is the
    full command with one flag put in at the third place, [--data-only]
    for PostgreSQL and [--compact] for MySQL, followed by one argument per
    model, in the order given. With no model the command names no table:
    the dump is then not limited to a part of the database. *)
Theorem partial_command_extends_full env models :
  (connection_vendor env = "postgresql" →
     ∃ full, full_command env = inr full
       ∧ partial_command env models
         = inr (take 2 full ++ ["--data-only"] ++ drop 2 full
                ++ map (λ x, "--table=" +:+ db_table x) models)
       ∧ partial_command env [] = inr (take 2 full ++ ["--data-only"] ++ drop 2 full))
  ∧ (connection_vendor env = "mysql" →
     ∃ full, full_command env = inr full
       ∧ partial_command env models
         = inr (take 2 full ++ ["--compact"] ++ drop 2 full ++ map db_table models)
       ∧ partial_command env [] = inr (take 2 full ++ ["--compact"] ++ drop 2 full)).
Proof.
  split; intros Hv; unfold full_command, partial_command; rewrite Hv;
    eexists; (split; [reflexivity|]); split; reflexivity.
Qed.

Lemma partial_command_extends_full_witness :
  let env := Fixture.an_env "mysql" 0 Fixture.noon in
  ∃ full, full_command env = inr full
    ∧ partial_command env [mk_model "a"; mk_model "b"]
      = inr (take 2 full ++ ["--compact"] ++ drop 2 full ++ ["a"; "b"])
    ∧ partial_command env [] = inr (take 2 full ++ ["--compact"] ++ drop 2 full).
Proof.
  cbn zeta.
  destruct (partial_command_extends_full
              (Fixture.an_env "mysql" 0 Fixture.noon)
              [mk_model "a"; mk_model "b"]) as [_ Hmy].
  apply Hmy. reflexivity.
Defined.
